(** * Gemma function-calling SDK: schema conversion, registry, dispatch,
      ReAct loop and conversation store, embedded from the Python sources.

    Python values are dynamically typed, so the embedding carries them in
    one value type [pyval]; a Python [dict] nested in a value is an
    insertion-ordered association list, while the registry and the
    property tables produced by the converters are finite maps.  Text is
    ASCII text: a [string] of characters below 128.  Floats are left out
    of the value type. *)

From Stdlib Require Import ZArith String Ascii List Lia.
From stdpp Require Import base option list gmap fin_maps strings pretty.

Local Open Scope string_scope.
Local Open Scope list_scope.
Local Open Scope Z_scope.
Local Set Warnings "-register-all".

(* ===================================================================== *)
(** ** Python values and the built-in operations the sources use          *)
(* ===================================================================== *)

Module Py.

Inductive pyval : Type :=
| PyNone
| PyBool (b : bool)
| PyInt (n : Z)
| PyStr (s : string)
| PyList (xs : list pyval)
| PyDict (kvs : list (string * pyval)).

(** [dict], as the association list of its items in insertion order. *)
Definition dict (V : Type) : Type := list (string * V).

(** [d.get(k)]: the value of the first item under [k]. *)
Fixpoint dict_get {V} (k : string) (d : dict V) : option V :=
  match d with
  | [] => None
  | (k', v) :: d' => if decide (k = k') then Some v else dict_get k d'
  end.

(** [k in d]. *)
Definition dict_has {V} (k : string) (d : dict V) : bool :=
  match dict_get k d with Some _ => true | None => false end.

(** [d[k] = v]: overwrite in place, or append a new item. *)
Fixpoint dict_set {V} (k : string) (v : V) (d : dict V) : dict V :=
  match d with
  | [] => [(k, v)]
  | (k', v') :: d' =>
      if decide (k = k') then (k, v) :: d' else (k', v') :: dict_set k v d'
  end.

(** [bool(v)]: Python truthiness. *)
Definition truthy (v : pyval) : bool :=
  match v with
  | PyNone => false
  | PyBool b => b
  | PyInt n => negb (n =? 0)%Z
  | PyStr s => negb (String.eqb s "")
  | PyList xs => match xs with [] => false | _ => true end
  | PyDict kvs => match kvs with [] => false | _ => true end
  end.

(** Truthiness of an [Optional[str]]. *)
Definition truthy_str (o : option string) : bool :=
  match o with
  | Some s => negb (String.eqb s "")
  | None => false
  end.

(** [x or default] on an optional value given as a [pyval]. *)
Definition py_or (v d : pyval) : pyval := if truthy v then v else d.

(** *** str methods *)

(** [c.isspace()] below 128: TAB..CR, FS..US and the blank. *)
Definition is_space (c : ascii) : bool :=
  let n := nat_of_ascii c in
  ((9 <=? n)%nat && (n <=? 13)%nat) || ((28 <=? n)%nat && (n <=? 32)%nat).

Fixpoint lstrip (s : string) : string :=
  match s with
  | String c s' => if is_space c then lstrip s' else s
  | EmptyString => EmptyString
  end.

(** [rstrip]: a character is kept when it is not a blank or something
    that is kept follows it. *)
Fixpoint rstrip (s : string) : string :=
  match s with
  | String c s' =>
      match rstrip s' with
      | EmptyString => if is_space c then EmptyString else String c EmptyString
      | r => String c r
      end
  | EmptyString => EmptyString
  end.

Definition strip (s : string) : string := rstrip (lstrip s).

(** [s.startswith(p)] and the text after the prefix. *)
Fixpoint strip_prefix (p s : string) : option string :=
  match p, s with
  | EmptyString, _ => Some s
  | String a p', String b s' =>
      if Ascii.eqb a b then strip_prefix p' s' else None
  | String _ _, EmptyString => None
  end.

Definition startswith (p s : string) : bool :=
  match strip_prefix p s with Some _ => true | None => false end.

(** [s.partition(p)] at the first occurrence of [p]: the text before it
    and the text after it, [None] when [p] does not occur. *)
Fixpoint find_sub (p s : string) : option (string * string) :=
  match strip_prefix p s with
  | Some rest => Some (EmptyString, rest)
  | None =>
      match s with
      | String c s' =>
          match find_sub p s' with
          | Some (before, rest) => Some (String c before, rest)
          | None => None
          end
      | EmptyString => None
      end
  end.

(** [p in s]. *)
Definition contains (p s : string) : bool :=
  match find_sub p s with Some _ => true | None => false end.

(** [s.split(sep)] for a one-character separator: never the empty list. *)
Fixpoint split (sep : ascii) (s : string) : list string :=
  match s with
  | EmptyString => [EmptyString]
  | String c s' =>
      if Ascii.eqb c sep then EmptyString :: split sep s'
      else match split sep s' with
           | seg :: segs => String c seg :: segs
           | [] => [String c EmptyString]
           end
  end.

(** [s.split(sep, 1)]: cut at the first separator only. *)
Fixpoint split1 (sep : ascii) (s : string) : list string :=
  match s with
  | EmptyString => [EmptyString]
  | String c s' =>
      if Ascii.eqb c sep then [EmptyString; s']
      else match split1 sep s' with
           | seg :: segs => String c seg :: segs
           | [] => [String c EmptyString]
           end
  end.

(** [sep.join(parts)]. *)
Fixpoint join (sep : string) (parts : list string) : string :=
  match parts with
  | [] => EmptyString
  | [p] => p
  | p :: ps => p +:+ sep +:+ join sep ps
  end.

Definition map_chars (f : ascii -> ascii) : string -> string :=
  fix go s :=
    match s with
    | String c s' => String (f c) (go s')
    | EmptyString => EmptyString
    end.

(** [s.replace(a, b)] for single characters. *)
Definition replace_char (a b : ascii) : string -> string :=
  map_chars (fun c => if Ascii.eqb c a then b else c).

Definition lower_char (c : ascii) : ascii :=
  let n := nat_of_ascii c in
  if ((65 <=? n)%nat && (n <=? 90)%nat) then ascii_of_nat (n + 32) else c.

Definition upper_char (c : ascii) : ascii :=
  let n := nat_of_ascii c in
  if ((97 <=? n)%nat && (n <=? 122)%nat) then ascii_of_nat (n - 32) else c.

Definition lower : string -> string := map_chars lower_char.
Definition upper : string -> string := map_chars upper_char.

(** [s[n:]]. *)
Fixpoint drop_str (n : nat) (s : string) : string :=
  match n, s with
  | O, _ => s
  | S n', String _ s' => drop_str n' s'
  | S _, EmptyString => EmptyString
  end.

(** Exceptions that can leave the modelled functions.  [ValueError] stands
    for a [ValueError] that is not a [JSONDecodeError], its subclass. *)
Inductive exn : Type :=
| KeyError (key : string)
| TypeError
| AttributeError
| ValidationError
| JSONDecodeError
| ValueError
| RecursionError.

(** A computation that returns or raises. *)
Inductive res (A : Type) : Type :=
| Ok (a : A)
| Raise (e : exn).
Arguments Ok {A} a.
Arguments Raise {A} e.

Definition bind {A B} (m : res A) (k : A -> res B) : res B :=
  match m with
  | Ok a => k a
  | Raise e => Raise e
  end.

Fixpoint mapM {A B} (f : A -> res B) (l : list A) : res (list B) :=
  match l with
  | [] => Ok []
  | a :: l' =>
      bind (f a) (fun b => bind (mapM f l') (fun bs => Ok (b :: bs)))
  end.

(** The newline and the double quote, by their codes. *)
Definition nl : ascii := "010"%char.
Definition dq : ascii := "034"%char.

(** [d[k]]: subscript, raising [KeyError]. *)
Definition dict_item {V} (k : string) (d : dict V) : res V :=
  match dict_get k d with
  | Some v => Ok v
  | None => Raise (KeyError k)
  end.

End Py.

Import Py.

Notation "'let!' x ':=' m 'in' k" := (Py.bind m (fun x => k))
  (at level 10, x name, m at level 100, k at level 200).

(* ===================================================================== *)
(** ** sdk_definition: function definitions, registry, call results       *)
(* ===================================================================== *)

Module Sdk.

(** What a host implementation does with its keyword arguments: it
    returns a value or raises an [Exception] whose [str(e)] is [msg].
    A call whose arguments do not fit the signature is such a raise.  An
    implementation that never returns, or that leaves with an exit
    request of the interpreter instead of an [Exception], is not a value
    of this type. *)
Inductive outcome : Type :=
| Returns (v : pyval)
| Raises (msg : string).

Record FunctionDefinition : Type := {
  name : string;
  description : string;
  parameters : dict pyval;
  supports_images : bool;
  implementation : option (dict pyval -> outcome)
}.

(** [FunctionDefinition.to_dict]. *)
Definition to_dict (self : FunctionDefinition) : dict pyval :=
  let result := [("name", PyStr (name self));
                 ("description", PyStr (description self));
                 ("parameters", PyDict (parameters self))] in
  if supports_images self
  then dict_set "supports_images" (PyBool true) result
  else result.

(** [str(e)] of the [TypeError] raised when a keyword argument is named
    like the first parameter of [__call__(self, *args, **kwargs)], as CPython
    3.10 and later word it (earlier versions leave out the class name). *)
Definition self_bound_twice : string :=
  "FunctionDefinition.__call__() got multiple values for argument 'self'".

(** [FunctionDefinition.__call__], entered as [function_def( **parameters )]:
    unpacking anything but a mapping is a [TypeError]; so is a keyword
    [self], which the call cannot bind next to the definition itself, and
    this is found before the body runs; in the body a missing
    implementation is a [ValueError]. *)
Definition call (self : FunctionDefinition) (kwargs : pyval) : outcome :=
  match kwargs with
  | PyDict kw =>
      if dict_has "self" kw then Raises self_bound_twice
      else
        match implementation self with
        | None =>
            Raises ("No implementation provided for function '" +:+ name self +:+ "'")
        | Some impl => impl kw
        end
  | _ => Raises "argument after ** must be a mapping"
  end.

(** [FunctionRegistry.functions]: the name-keyed table. *)
Abbreviation FunctionRegistry := (gmap string FunctionDefinition).

Definition register (function_def : FunctionDefinition)
    (functions : FunctionRegistry) : FunctionRegistry :=
  <[name function_def := function_def]> functions.

Definition get (n : string) (functions : FunctionRegistry)
    : option FunctionDefinition :=
  functions !! n.

(** [get_all] lists the definitions of the table.  The table is a finite
    map, which keeps no registration order: the listing comes in the order
    of the map's keys, where the source lists in the order of
    registration.  Only the text of the prompts depends on the order. *)
Definition get_all (functions : FunctionRegistry) : list FunctionDefinition :=
  (map_to_list functions).*2.

Definition get_all_dicts (functions : FunctionRegistry) : list (dict pyval) :=
  to_dict <$> get_all functions.

Definition remove (n : string) (functions : FunctionRegistry) : FunctionRegistry :=
  delete n functions.

Definition clear (functions : FunctionRegistry) : FunctionRegistry := ∅.

Record FunctionCallResult : Type := {
  function_name : string;
  call_parameters : dict pyval;
  result : pyval;
  error : option string
}.

(** Construction of the validated model [FunctionCallResult]:
    [function_name: str] and [parameters: Dict[str, Any]] reject any
    other kind of value, [result: Any] takes everything. *)
Definition FunctionCallResult_new (function_name parameters result : pyval)
    (error : option string) : res FunctionCallResult :=
  match function_name, parameters with
  | PyStr n, PyDict kw =>
      Ok {| function_name := n; call_parameters := kw;
            result := result; error := error |}
  | _, _ => Raise ValidationError
  end.

Definition is_success (self : FunctionCallResult) : bool :=
  match error self with None => true | Some _ => false end.

(** [FunctionCallResult.dict()]. *)
Definition result_dict (self : FunctionCallResult) : dict pyval :=
  [("function_name", PyStr (function_name self));
   ("parameters", PyDict (call_parameters self));
   ("result", result self);
   ("error", match error self with Some e => PyStr e | None => PyNone end)].

(** [GemmaSDK.execute_function]. *)
Definition execute_function (registry : FunctionRegistry)
    (function_call : dict pyval) : res FunctionCallResult :=
  let! function_name := dict_item "name" function_call in
  let! parameters := dict_item "parameters" function_call in
  match function_name with
  | PyStr fname =>
      match get fname registry with
      | None =>
          FunctionCallResult_new function_name parameters PyNone
            (Some ("Function '" +:+ fname +:+ "' not found"))
      | Some function_def =>
          match call function_def parameters with
          | Returns r =>
              FunctionCallResult_new function_name parameters r None
          | Raises msg =>
              FunctionCallResult_new function_name parameters PyNone (Some msg)
          end
      end
  | PyList _ | PyDict _ => Raise TypeError
  | _ => Raise ValidationError
  end.

(** Which of the two outcome fields of a result are populated. *)
Definition value_set (r : FunctionCallResult) : Prop := result r <> PyNone.
Definition error_set (r : FunctionCallResult) : Prop := error r <> None.

Definition exactly_one (r : FunctionCallResult) : Prop :=
  (value_set r /\ ~ error_set r) \/ (error_set r /\ ~ value_set r).

(** The bindings stored under the name [n]. *)
Definition bindings_under (n : string) (functions : FunctionRegistry)
    : list (string * FunctionDefinition) :=
  filter (fun item => item.1 = n) (map_to_list functions).

(** A call request [{"name": n, "parameters": kwargs}]. *)
Definition call_request (n : string) (kwargs : dict pyval) : dict pyval :=
  [("name", PyStr n); ("parameters", PyDict kwargs)].

End Sdk.

(* ===================================================================== *)
(** ** api_converter: external API descriptions to function schemas      *)
(* ===================================================================== *)

Module Converter.

(** *** Input documents of the expected shape.  A key that may be absent
    is an [option]; [required] is [False] when absent. *)

(** The keys a parameter or a body property is read for. *)
Record PropSchema : Type := {
  ps_type : option string;
  ps_description : option string;
  ps_enum : option (list pyval);
  ps_items : option (option string)     (* "items" and, inside, "type" *)
}.

Record Param : Type := {
  p_name : string;
  p_required : bool;
  p_schema : PropSchema
}.

Record Schema : Type := {
  s_properties : option (dict PropSchema);
  s_required : option (list string)
}.

Record MediaType : Type := { schema : option Schema }.

Record RequestBody : Type := { content : option (dict MediaType) }.

Record Operation : Type := {
  operationId : option string;
  summary : option string;
  op_description : option string;
  op_parameters : option (list Param);
  requestBody : option RequestBody
}.

Record OpenAPISpec : Type := { paths : option (dict (dict Operation)) }.

Record Endpoint : Type := {
  e_name : option string;
  e_description : option string;
  e_parameters : option (list Param);
  image_processing : bool
}.

Record RestDocs : Type := { endpoints : option (list Endpoint) }.

(** *** The canonical function schema. *)

Inductive ParamDef : Type := mkParamDef {
  pd_type : string;
  pd_description : option string;
  pd_enum : option (list pyval);
  pd_format : option string;
  pd_items : option string;               (* {"type": t} *)
  pd_properties : option (dict ParamDef)
}.

Record Parameters : Type := {
  type : string;
  properties : gmap string ParamDef;
  required : list string
}.

Record GemmaFunction : Type := {
  name : string;
  description : string;
  parameters : Parameters;
  supports_images : bool
}.

(** *** OpenAPIConverter *)

Definition type_mapping : dict string :=
  [("string", "string"); ("integer", "integer"); ("number", "number");
   ("boolean", "boolean"); ("array", "array"); ("object", "object")].

(** [re.sub(r'<[^>]+>', '', d)].  [opens_tag s] tells whether the text
    after a ['<'] continues a tag: a first character other than ['>'] and
    a ['>'] somewhere after it. *)
Definition opens_tag (s : string) : bool :=
  match s with
  | String c s' => negb (Ascii.eqb c ">") && contains ">" s'
  | EmptyString => false
  end.

Fixpoint remove_tags (in_tag : bool) (s : string) : string :=
  match s with
  | EmptyString => EmptyString
  | String c s' =>
      if in_tag then remove_tags (negb (Ascii.eqb c ">")) s'
      else if Ascii.eqb c "<" && opens_tag s' then remove_tags true s'
      else String c (remove_tags false s')
  end.

(** [re.sub(r'\s+', ' ', d)]. *)
Fixpoint collapse_spaces (in_run : bool) (s : string) : string :=
  match s with
  | EmptyString => EmptyString
  | String c s' =>
      if is_space c
      then if in_run then collapse_spaces true s'
           else String " " (collapse_spaces true s')
      else String c (collapse_spaces false s')
  end.

Definition _clean_description (description : option string) : string :=
  if truthy_str description
  then strip (collapse_spaces false (remove_tags false (default "" description)))
  else "".

(** The body shared by [_convert_parameter] and the loop of
    [_convert_schema_to_parameters]. *)
Definition convert_prop (param : PropSchema) : ParamDef :=
  let param_type := default "string" (ps_type param) in
  let param_type :=
    if dict_has param_type type_mapping then param_type else "string" in
  {| pd_type := default param_type (dict_get param_type type_mapping);
     pd_description :=
       match ps_description param with
       | Some d => Some (_clean_description (Some d))
       | None => None
       end;
     pd_enum := ps_enum param;
     pd_format := None;
     pd_items :=
       if decide (param_type = "array")
       then match ps_items param with
            | Some items => dict_get (default "string" items) type_mapping
            | None => None
            end
       else None;
     pd_properties := None |}.

Definition _convert_parameter (param : Param) : ParamDef :=
  convert_prop (p_schema param).

Definition _convert_schema_to_parameters (schema : Schema) : Parameters :=
  {| type := "object";
     properties :=
       foldl (fun properties '(prop_name, prop_schema) =>
                <[prop_name := convert_prop prop_schema]> properties)
             ∅ (default [] (s_properties schema));
     required := default [] (s_required schema) |}.

Definition methods : list string := ["get"; "post"; "put"; "delete"; "patch"].

Definition derive_name (method path : string) : string :=
  let path_parts :=
    filter (fun p => p <> "" /\ startswith "{" p = false) (split "/" path) in
  lower (replace_char "-" "_" (method +:+ "_" +:+ join "_" path_parts)).

Definition convert_operation (path method : string) (operation : Operation)
    : GemmaFunction :=
  let function_name := default "" (operationId operation) in
  let function_name :=
    if String.eqb function_name "" then derive_name method path
    else function_name in
  let description := _clean_description (Some (default "" (summary operation))) in
  let description :=
    match op_description operation with
    | Some d => if String.eqb description "" then _clean_description (Some d)
                else description
    | None => description
    end in
  let description :=
    if String.eqb description "" then upper method +:+ " " +:+ path
    else description in
  let '(parameters, required) :=
    foldl (fun '(parameters, required) param =>
             (<[p_name param := _convert_parameter param]> parameters,
              if p_required param then required ++ [p_name param] else required))
          (∅, []) (default [] (op_parameters operation)) in
  let '(parameters, required) :=
    match requestBody operation with
    | Some body =>
        match dict_get "application/json" (default [] (content body)) with
        | Some media =>
            let body_params :=
              _convert_schema_to_parameters
                (default {| s_properties := None; s_required := None |}
                         (schema media)) in
            (properties body_params ∪ parameters,
             required ++ Converter.required body_params)
        | None => (parameters, required)
        end
    | None => (parameters, required)
    end in
  {| name := function_name;
     description := description;
     parameters := {| type := "object"; properties := parameters;
                      required := required |};
     supports_images := false |}.

Definition _convert_openapi_to_gemma (openapi_spec : OpenAPISpec)
    : list GemmaFunction :=
  '(path, path_item) ← default [] (paths openapi_spec);
  '(method, operation) ← path_item;
  if bool_decide (method ∈ methods)
  then [convert_operation path method operation]
  else [].

(** *** RESTConverter.convert, on the loaded document *)

Definition rest_param_def (param : Param) : ParamDef :=
  {| pd_type := default "string" (ps_type (p_schema param));
     pd_description := ps_description (p_schema param);
     pd_enum := ps_enum (p_schema param);
     pd_format := None;
     pd_items := None;
     pd_properties := None |}.

Definition convert_rest_endpoint (endpoint : Endpoint) : GemmaFunction :=
  let '(parameters, required) :=
    foldl (fun '(parameters, required) param =>
             (<[p_name param := rest_param_def param]> parameters,
              if p_required param then required ++ [p_name param] else required))
          (∅, []) (default [] (e_parameters endpoint)) in
  {| name := default "" (e_name endpoint);
     description := default "" (e_description endpoint);
     parameters := {| type := "object"; properties := parameters;
                      required := required |};
     supports_images := false |}.

Definition convert_rest (rest_docs : RestDocs) : list GemmaFunction :=
  convert_rest_endpoint <$> default [] (endpoints rest_docs).

(** *** ImageAPIConverter.convert_image_api, on the loaded document *)

Definition image_param_def (param : Param) : ParamDef :=
  let param_type := default "string" (ps_type (p_schema param)) in
  if decide (param_type = "image")
  then {| pd_type := "string";
          pd_description :=
            Some (default "Image file or URL" (ps_description (p_schema param)));
          pd_enum := None;
          pd_format := Some "binary";
          pd_items := None;
          pd_properties := None |}
  else rest_param_def param.

Definition plain (t d : string) (enum : option (list pyval)) : ParamDef :=
  {| pd_type := t; pd_description := Some d; pd_enum := enum;
     pd_format := None; pd_items := None; pd_properties := None |}.

Definition image_processing_options : ParamDef :=
  {| pd_type := "object";
     pd_description := Some "Options for image processing";
     pd_enum := None;
     pd_format := None;
     pd_items := None;
     pd_properties := Some
       [("resize", plain "boolean" "Whether to resize the image" None);
        ("max_size", plain "integer" "Maximum size for the image (pixels)" None);
        ("format", plain "string" "Output format for the image"
                     (Some [PyStr "jpeg"; PyStr "png"; PyStr "webp"]))] |}.

Definition convert_image_endpoint (endpoint : Endpoint) : GemmaFunction :=
  let '(parameters, required) :=
    foldl (fun '(parameters, required) param =>
             (<[p_name param := image_param_def param]> parameters,
              if p_required param then required ++ [p_name param] else required))
          (∅, []) (default [] (e_parameters endpoint)) in
  let parameters :=
    if image_processing endpoint
    then <["image_processing_options" := image_processing_options]> parameters
    else parameters in
  {| name := default "" (e_name endpoint);
     description := default "" (e_description endpoint);
     parameters := {| type := "object"; properties := parameters;
                      required := required |};
     supports_images := true |}.

Definition convert_image_api (api_spec : RestDocs) : list GemmaFunction :=
  convert_image_endpoint <$> default [] (endpoints api_spec).

(** *** The three entry points of [APIConverter], by kind of source. *)

Inductive document : Type :=
| OpenAPIDocument (openapi_spec : OpenAPISpec)
| RestDocument (rest_docs : RestDocs)
| ImageDocument (api_spec : RestDocs).

Definition convert (source : document) : list GemmaFunction :=
  match source with
  | OpenAPIDocument openapi_spec => _convert_openapi_to_gemma openapi_spec
  | RestDocument rest_docs => convert_rest rest_docs
  | ImageDocument api_spec => convert_image_api api_spec
  end.

(** Every name of the [required] list is a key of [properties]. *)
Definition required_declared (f : GemmaFunction) : Prop :=
  Forall (fun n => is_Some (properties (parameters f) !! n))
         (required (parameters f)).

(** The same on the request-body schema of an operation: its
    [required] list names declared properties only. *)
Definition body_required_declared (operation : Operation) : bool :=
  match requestBody operation with
  | Some body =>
      match dict_get "application/json" (default [] (content body)) with
      | Some media =>
          match schema media with
          | Some sch =>
              forallb (fun n => dict_has n (default [] (s_properties sch)))
                      (default [] (s_required sch))
          | None => true
          end
      | None => true
      end
  | None => true
  end.

(** A source whose converted operations all have such a body schema;
    the endpoint kinds have no body schema. *)
Definition bodies_declare_required (source : document) : bool :=
  match source with
  | OpenAPIDocument openapi_spec =>
      forallb (fun '(_, path_item) =>
                 forallb (fun '(method, operation) =>
                            negb (bool_decide (method ∈ methods))
                            || body_required_declared operation)
                         (path_item : dict Operation))
              (default [] (paths openapi_spec))
  | _ => true
  end.

(** The schema of the JSON request body of an operation, when the
    operation has such a body; a body without schema has the empty one. *)
Definition body_schema (operation : Operation) : option Schema :=
  match requestBody operation with
  | Some body =>
      match dict_get "application/json" (default [] (content body)) with
      | Some media =>
          Some (default {| s_properties := None; s_required := None |}
                        (schema media))
      | None => None
      end
  | None => None
  end.

(** The parameters of a list under their names, the last one first: a
    lookup finds the last parameter of a name. *)
Definition by_name (params : list Param) : dict Param :=
  reverse ((fun param => (p_name param, param)) <$> params).

(** The names of the parameters marked required, in their order. *)
Definition required_names (params : list Param) : list string :=
  p_name <$> filter (fun param => p_required param = true) params.


(** No tag is left in a text: after no ['<'] does a tag body go on. *)
Fixpoint tag_free (s : string) : bool :=
  match s with
  | EmptyString => true
  | String c s' => negb (Ascii.eqb c "<" && opens_tag s') && tag_free s'
  end.

(** Every whitespace character of a text is a blank that follows
    something else than whitespace ([after_blank] tells what precedes the
    text). *)
Fixpoint blanks_single (after_blank : bool) (s : string) : bool :=
  match s with
  | EmptyString => true
  | String c s' =>
      if is_space c
      then Ascii.eqb c " " && negb after_blank && blanks_single true s'
      else blanks_single false s'
  end.

(** [c.isupper()] below 128. *)
Definition is_upper (c : ascii) : bool :=
  let n := nat_of_ascii c in (65 <=? n)%nat && (n <=? 90)%nat.

End Converter.

(* ===================================================================== *)
(** ** runtime/conversation: messages, conversations and their manager   *)
(* ===================================================================== *)

Module Conversations.

(** A dataclass does not enforce its annotations: every field holds
    whatever value it was given. *)
Record Message : Type := {
  role : pyval;
  content : pyval;
  function_call : pyval;
  function_result : pyval;
  timestamp : pyval
}.

Record Conversation : Type := {
  system_prompt : pyval;
  messages : list Message
}.

Definition default_system_prompt : string := "You are a helpful AI assistant.".

(** [Conversation.__init__]; [Conversation()] passes [None]. *)
Definition init (system_prompt : pyval) : Conversation :=
  {| system_prompt := py_or system_prompt (PyStr default_system_prompt);
     messages := [] |}.

(** [now] is the reading of the clock taken by the [timestamp] default. *)
Definition add_user_message (content : pyval) (now : string)
    (self : Conversation) : Conversation :=
  {| system_prompt := system_prompt self;
     messages := messages self ++
       [{| role := PyStr "user"; content := content;
           function_call := PyNone; function_result := PyNone;
           timestamp := PyStr now |}] |}.

Definition add_assistant_message (content function_call : pyval) (now : string)
    (self : Conversation) : Conversation :=
  {| system_prompt := system_prompt self;
     messages := messages self ++
       [{| role := PyStr "assistant"; content := content;
           function_call := function_call; function_result := PyNone;
           timestamp := PyStr now |}] |}.

Definition clear (self : Conversation) : Conversation :=
  {| system_prompt := system_prompt self; messages := [] |}.

(** [vars(message)]. *)
Definition message_vars (message : Message) : dict pyval :=
  [("role", role message);
   ("content", content message);
   ("function_call", function_call message);
   ("function_result", function_result message);
   ("timestamp", timestamp message)].

Definition to_dict (self : Conversation) : dict pyval :=
  [("system_prompt", system_prompt self);
   ("messages", PyList ((fun m => PyDict (message_vars m)) <$> messages self))].

(** The items a [for] loop draws from a value. *)
Definition iterate (v : pyval) : res (list pyval) :=
  match v with
  | PyList xs => Ok xs
  | PyDict kvs => Ok (PyStr <$> kvs.*1)
  | PyStr s => Ok ((fun c => PyStr (String c EmptyString)) <$> list_ascii_of_string s)
  | _ => Raise TypeError
  end.

Definition message_of (now : string) (message_data : pyval) : res Message :=
  match message_data with
  | PyDict d =>
      let! r := dict_item "role" d in
      let! c := dict_item "content" d in
      Ok {| role := r; content := c;
            function_call := default PyNone (dict_get "function_call" d);
            function_result := default PyNone (dict_get "function_result" d);
            timestamp := default (PyStr now) (dict_get "timestamp" d) |}
  | _ => Raise TypeError
  end.

(** The loop of [from_dict] from the record at position [i] on.  The
    clock is read once for every record: [now i] is the reading taken
    while the record at position [i] is built. *)
Fixpoint append_messages (now : nat -> string) (i : nat) (data : list pyval)
    (conversation : Conversation) : res Conversation :=
  match data with
  | [] => Ok conversation
  | message_data :: rest =>
      let! message := message_of (now i) message_data in
      append_messages now (S i) rest
        {| system_prompt := system_prompt conversation;
           messages := messages conversation ++ [message] |}
  end.

(** [Conversation.from_dict]; a reading of the clock is stored only for a
    message record without ["timestamp"]. *)
Definition from_dict (now : nat -> string) (data : dict pyval) : res Conversation :=
  let conversation := init (default PyNone (dict_get "system_prompt" data)) in
  let! items := iterate (default (PyList []) (dict_get "messages" data)) in
  append_messages now 0 items conversation.

Section FunctionResults.

(** [str(v)], the text an f-string puts for a value. *)
Variable py_str : pyval -> string.

(** [add_function_result], given a [FunctionCallResult] (which has
    [.dict()]) or any other value, used as it is. *)
Definition add_function_result (function_result : Sdk.FunctionCallResult + pyval)
    (now : string) (self : Conversation) : res Conversation :=
  let! result_dict :=
    match function_result with
    | inl r => Ok (Sdk.result_dict r)
    | inr (PyDict d) => Ok d
    | inr _ => Raise TypeError
    end in
  let! fname := dict_item "function_name" result_dict in
  let! r := dict_item "result" result_dict in
  let content := "Function " +:+ py_str fname +:+ " returned: " +:+ py_str r in
  let content :=
    match dict_get "error" result_dict with
    | Some e => if truthy e
                then "Function " +:+ py_str fname +:+ " error: " +:+ py_str e
                else content
    | None => content
    end in
  Ok {| system_prompt := system_prompt self;
        messages := messages self ++
          [{| role := PyStr "function"; content := PyStr content;
              function_call := PyNone; function_result := PyDict result_dict;
              timestamp := PyStr now |}] |}.

(** The operations that change a conversation. *)
Inductive operation : Type :=
| AddUserMessage (content : pyval) (now : string)
| AddAssistantMessage (content function_call : pyval) (now : string)
| AddFunctionResult (function_result : Sdk.FunctionCallResult + pyval) (now : string)
| Clear.

(** One call; a call that raises leaves the conversation as it was. *)
Definition apply (self : Conversation) (o : operation) : Conversation :=
  match o with
  | AddUserMessage c now => add_user_message c now self
  | AddAssistantMessage c fc now => add_assistant_message c fc now self
  | AddFunctionResult fr now =>
      match add_function_result fr now self with
      | Ok self' => self'
      | Raise _ => self
      end
  | Clear => clear self
  end.

(** The conversation a caller holds after [Conversation(system_prompt)]
    and a sequence of calls. *)
Definition built (system_prompt : pyval) (calls : list operation) : Conversation :=
  foldl apply (init system_prompt) calls.

End FunctionResults.

(** *** ConversationManager *)

Abbreviation ConversationManager := (gmap string Conversation).

Definition create_conversation (conversation_id : string) (system_prompt : pyval)
    (conversations : ConversationManager) : Conversation * ConversationManager :=
  let conversation := init system_prompt in
  (conversation, <[conversation_id := conversation]> conversations).

Definition get_conversation (conversation_id : string)
    (conversations : ConversationManager) : option Conversation :=
  conversations !! conversation_id.

Definition delete_conversation (conversation_id : string)
    (conversations : ConversationManager) : ConversationManager :=
  delete conversation_id conversations.

(** [get_formatted_messages]. *)
Definition format_message (message : Message) : dict pyval :=
  let formatted := [("role", role message); ("content", content message)] in
  let formatted :=
    if truthy (function_call message)
    then dict_set "function_call" (function_call message) formatted
    else formatted in
  if truthy (function_result message)
  then dict_set "function_result" (function_result message) formatted
  else formatted.

Definition get_formatted_messages (self : Conversation) : list (dict pyval) :=
  [("role", PyStr "system"); ("content", system_prompt self)]
  :: (format_message <$> messages self).

End Conversations.

(* ===================================================================== *)
(** ** runtime/react_executor: parsing model text and the ReAct loop     *)
(* ===================================================================== *)

Module ReAct.

Record ParsedResponse : Type := {
  thought : option string;
  action : option string;
  action_input : pyval;               (* [PyNone] until an action matches *)
  final_answer : option string
}.

(** *** The three patterns of [parse_react_response] *)

(** Where [$] matches: at the end, or before a newline that ends the text. *)
Definition at_end (s : string) : bool :=
  match s with
  | EmptyString => true
  | String c EmptyString => Ascii.eqb c nl
  | _ => false
  end.

(** [(.*?)(?:Action:|Final Answer:|$)] under DOTALL: the shortest text
    after which one of the three alternatives matches. *)
Fixpoint thought_text (s : string) : string :=
  if startswith "Action:" s || startswith "Final Answer:" s || at_end s
  then EmptyString
  else match s with
       | String c s' => String c (thought_text s')
       | EmptyString => EmptyString
       end.

(** [(.*?)$] under DOTALL. *)
Fixpoint answer_text (s : string) : string :=
  if at_end s then EmptyString
  else match s with
       | String c s' => String c (answer_text s')
       | EmptyString => EmptyString
       end.

(** [(.*?)lit] followed by the rest of a pattern [k], without DOTALL:
    the shortest run of characters other than the newline after which
    [lit] and then [k] match; a failure of [k] lets the run grow. *)
Fixpoint lazy_dots {R} (lit : string) (k : string -> option R) (s : string)
    : option (string * R) :=
  let grow :=
    match s with
    | String c s' =>
        if Ascii.eqb c nl then None
        else match lazy_dots lit k s' with
             | Some (g, r) => Some (String c g, r)
             | None => None
             end
    | EmptyString => None
    end in
  match strip_prefix lit s with
  | Some rest =>
      match k rest with
      | Some r => Some (EmptyString, r)
      | None => grow
      end
  | None => grow
  end.

Definition action_prefix : string := "Action: I should use the tool `".

(** The pattern of the action line, tried at the start of [s]. *)
Definition match_action (s : string) : option (string * string) :=
  match strip_prefix action_prefix s with
  | Some rest =>
      match lazy_dots "` with input `"
                      (lazy_dots "`" (fun _ => Some tt)) rest with
      | Some (g1, (g2, _)) => Some (g1, g2)
      | None => None
      end
  | None => None
  end.

(** [re.search]: the leftmost position at which the pattern matches. *)
Fixpoint search_action (s : string) : option (string * string) :=
  match match_action s with
  | Some groups => Some groups
  | None =>
      match s with
      | String _ s' => search_action s'
      | EmptyString => None
      end
  end.

Definition search_thought (response : string) : option string :=
  match find_sub "Thought:" response with
  | Some (_, rest) => Some (thought_text rest)
  | None => None
  end.

Definition search_final_answer (response : string) : option string :=
  match find_sub "Final Answer:" response with
  | Some (_, rest) => Some (answer_text rest)
  | None => None
  end.

(** The [except json.JSONDecodeError] branch: key-value pairs. *)
Definition parse_pairs (action_input_str : string) : dict pyval :=
  foldl (fun action_input pair =>
           if contains ":" pair
           then match split1 ":" pair with
                | [key; value] =>
                    dict_set (strip key) (PyStr (strip value)) action_input
                | _ => action_input
                end
           else action_input)
        [] (split "," action_input_str).

(** What a parse has populated. *)
Definition action_populated (p : ParsedResponse) : Prop :=
  action p <> None /\ action_input p <> PyNone.

Definition at_most_one (p : ParsedResponse) : Prop :=
  ~ (action_populated p /\ final_answer p <> None).

(** Trimming in the words of the specification: the blanks in front are
    dropped, and the blanks at the end, which are those in front of the
    text read backwards. *)
Fixpoint drop_blanks (l : list ascii) : list ascii :=
  match l with
  | c :: l' => if is_space c then drop_blanks l' else l
  | [] => []
  end.

Definition trimmed (s : string) : string :=
  string_of_list_ascii
    (reverse (drop_blanks (reverse (drop_blanks (list_ascii_of_string s))))).

(** The fallback in the words of the specification: the payload is split
    on commas, each segment on its first colon, both sides are trimmed,
    and the pairs make a flat map from strings to strings (a later pair
    replaces an earlier one under the same key). *)
Definition fallback_pairs (payload : string) : list (string * string) :=
  omap (fun segment =>
          match find_sub ":" segment with
          | Some (key, value) => Some (trimmed key, trimmed value)
          | None => None
          end)
       (split "," payload).

Definition fallback_map (payload : string) : gmap string string :=
  list_to_map (reverse (fallback_pairs payload)).

Section Executor.

(** [json.loads]: the decoded value, or the exception it raises, which is
    [JSONDecodeError] for a text that is not JSON, [ValueError] for an
    integer with more digits than [int] converts, [RecursionError] for a
    nesting that is too deep. *)
Variable json_loads : string -> res pyval.
(** [json.dumps(v, indent=i)]. *)
Variable json_dumps : option nat -> pyval -> string.
(** [str(v)]. *)
Variable py_str : pyval -> string.
(** The tokenizer, [model.generate] and [decode] taken together: the text
    that comes back for the prompt of the given turn. *)
Variable generate : nat -> string -> string.

(** The [try] around [json.loads]: only [JSONDecodeError] is caught. *)
Definition parse_action_input (action_input_str : string) : res pyval :=
  match json_loads action_input_str with
  | Ok v => Ok v
  | Raise JSONDecodeError => Ok (PyDict (parse_pairs action_input_str))
  | Raise e => Raise e
  end.

Definition parse_react_response (response : string) : res ParsedResponse :=
  let action_match := search_action response in
  let! parsed_input :=
    match action_match with
    | Some (_, g2) => parse_action_input (strip g2)
    | None => Ok PyNone
    end in
  Ok {| thought := strip <$> search_thought response;
        action := (fun g => strip g.1) <$> action_match;
        action_input := parsed_input;
        final_answer := strip <$> search_final_answer response |}.

(** [execute_action]. *)
Definition execute_action (registry : Sdk.FunctionRegistry)
    (action : string) (action_input : pyval) : res string :=
  let function_call := [("name", PyStr action); ("parameters", action_input)] in
  let! result := Sdk.execute_function registry function_call in
  if truthy_str (Sdk.error result)
  then Ok ("Error: " +:+ default "" (Sdk.error result))
  else match Sdk.result result with
       | PyStr s => Ok s
       | (PyDict _ | PyList _) as v => Ok (json_dumps (Some 2%nat) v)
       | v => Ok (py_str v)
       end.

(** The line of one registered function in the prompt. *)
Definition tool_description (func : Sdk.FunctionDefinition) : res string :=
  let! props := dict_item "properties" (Sdk.parameters func) in
  let! params :=
    match props with
    | PyDict items =>
        mapM (fun '(param_name, param_info) =>
                match param_info with
                | PyDict info =>
                    Ok (param_name +:+ ": " +:+
                        match dict_get "type" info with
                        | Some t => py_str t
                        | None => "string"
                        end)
                | _ => Raise AttributeError
                end) items
    | _ => Raise AttributeError
    end in
  Ok ("* `" +:+ Sdk.name func +:+ "(" +:+ join ", " params +:+ ")`: "
      +:+ Sdk.description func +:+ String nl EmptyString).

Definition lines (l : list string) : string := join (String nl EmptyString) l.

Definition format_example : string :=
  "{" +:+ String dq "param1" +:+ String dq ": " +:+ String dq "value1"
  +:+ String dq ", " +:+ String dq "param2" +:+ String dq ": "
  +:+ String dq "value2" +:+ String dq "}".

(** [create_react_prompt]: the instructions, the history, the query. *)
Definition create_react_prompt (registry : Sdk.FunctionRegistry)
    (conversation_history : list string) (user_query : string) : res string :=
  let! tools := mapM tool_description (Sdk.get_all registry) in
  let tools_description := foldl String.append EmptyString tools in
  let system_prompt :=
    lines ["You are an AI assistant that helps users by using tools.";
           "You have access to the following tools:";
           "";
           tools_description;
           "";
           "Use the following format:";
           "";
           "Thought: I need to think about what to do";
           "Action: I should use the tool `tool_name` with input `"
             +:+ format_example +:+ "`";
           "Observation: The result of the tool";
           "... (repeat Thought/Action/Observation as needed)";
           "Final Answer: The final response to the user's query";
           "";
           "Begin!";
           ""] in
  let conversation :=
    foldl (fun conversation entry =>
             conversation +:+ String nl entry)
          system_prompt conversation_history in
  Ok (conversation +:+ String nl "User query: " +:+ user_query
      +:+ String nl "Thought:").

Definition sentinel : string :=
  "No final answer was reached after the maximum number of turns.".

(** What a call of [execute] leaves behind: the string it returns or the
    exception it lets through, the history of the executor, and the number
    of requests made to the model. *)
Record run : Type := {
  outcome : res string;
  conversation_history : list string;
  turns : nat
}.

(** An f-string on an [Optional[str]]. *)
Definition show (o : option string) : string := default "None" o.

(** The [for turn in range(max_turns)] loop, [remaining] turns from
    [turn] on, and the [return] after it. *)
Fixpoint turn_loop (registry : Sdk.FunctionRegistry) (remaining turn : nat)
    (conversation : string) (history : list string) : run :=
  match remaining with
  | O => {| outcome := Ok sentinel; conversation_history := history;
            turns := turn |}
  | S remaining' =>
      let response := generate turn conversation in
      let new_content := drop_str (String.length conversation) response in
      let conversation := response in
      match parse_react_response new_content with
      | Raise e =>
          {| outcome := Raise e; conversation_history := history;
             turns := S turn |}
      | Ok parsed =>
          let history := history ++ ["Thought: " +:+ show (thought parsed)] in
          if truthy_str (final_answer parsed)
          then {| outcome := Ok (show (final_answer parsed));
                  conversation_history :=
                    history ++ ["Final Answer: " +:+ show (final_answer parsed)];
                  turns := S turn |}
          else if truthy_str (action parsed) && truthy (action_input parsed)
          then
            let history :=
              history ++ ["Action: I should use the tool `"
                          +:+ show (action parsed) +:+ "` with input `"
                          +:+ json_dumps None (action_input parsed) +:+ "`"] in
            match execute_action registry (show (action parsed))
                                 (action_input parsed) with
            | Ok result =>
                turn_loop registry remaining' (S turn)
                  (conversation +:+ String nl "Observation: " +:+ result
                   +:+ String nl "Thought:")
                  (history ++ ["Observation: " +:+ result])
            | Raise e =>
                {| outcome := Raise e; conversation_history := history;
                   turns := S turn |}
            end
          else {| outcome := Ok sentinel; conversation_history := history;
                  turns := S turn |}
      end
  end.

(** Every text of the model is parsed without a raise, and every truthy
    action input that it decodes to is a dict. *)
Definition dict_inputs : Prop :=
  forall turn conversation,
    exists parsed,
      parse_react_response
        (drop_str (String.length conversation) (generate turn conversation))
      = Ok parsed /\
      (truthy (action_input parsed) = true ->
       exists kwargs, action_input parsed = PyDict kwargs).

(** [ReActExecutor.execute]. *)
Definition execute (registry : Sdk.FunctionRegistry) (history : list string)
    (user_query : string) (max_turns : nat) : run :=
  match create_react_prompt registry history user_query with
  | Ok conversation => turn_loop registry max_turns 0 conversation history
  | Raise e => {| outcome := Raise e; conversation_history := history;
                  turns := 0 |}
  end.

End Executor.

End ReAct.

(* ===================================================================== *)
(** ** A JSON decoder for the runs on concrete texts                      *)
(* ===================================================================== *)

Module Json.

(** [loads] decodes the documents built from [null], [true], [false],
    integers, strings without escapes, arrays and objects, as [json.loads]
    does; on a text that [json.loads] rejects it raises [JSONDecodeError],
    and on an integer literal of more than [max_str_digits] digits the
    [ValueError] of the conversion to [int].  Texts with floats or escapes
    are not in its domain, nor are nestings deep enough for a
    [RecursionError]: it is used below on texts without them only, and the
    general statements hold for any decoder. *)

Definition is_ws (c : ascii) : bool :=
  Ascii.eqb c " " || Ascii.eqb c "009" || Ascii.eqb c nl || Ascii.eqb c "013".

Fixpoint skip_ws (s : string) : string :=
  match s with
  | String c s' => if is_ws c then skip_ws s' else s
  | EmptyString => EmptyString
  end.

(** The text of a string up to its closing quote, and what follows. *)
Fixpoint string_body (s : string) : option (string * string) :=
  match s with
  | EmptyString => None
  | String c s' =>
      if Ascii.eqb c dq then Some (EmptyString, s')
      else if Ascii.eqb c "\" || (nat_of_ascii c <? 32)%nat then None
      else match string_body s' with
           | Some (body, rest) => Some (String c body, rest)
           | None => None
           end
  end.

Definition digit (c : ascii) : option Z :=
  let n := nat_of_ascii c in
  if ((48 <=? n)%nat && (n <=? 57)%nat) then Some (Z.of_nat n - 48) else None.

(** The digits at the start of [s], read after the value [acc]. *)
Fixpoint digits (acc : Z) (s : string) : Z * string :=
  match s with
  | String c s' =>
      match digit c with
      | Some d => digits (10 * acc + d) s'
      | None => (acc, s)
      end
  | EmptyString => (acc, s)
  end.

(** [sys.int_info.default_max_str_digits]: [int] refuses a decimal text
    with more digits (CPython 3.11, and the later releases of 3.8 to
    3.10). *)
Definition max_str_digits : nat := 4300.

(** An integer literal: an optional minus sign, then a single 0 or a
    run of digits that does not start with 0; no fraction and no
    exponent may follow it.  The literal is matched first and converted
    then. *)
Definition integer (s : string) : res (Z * string) :=
  let '(sign, s) :=
    match s with
    | String c s' => if Ascii.eqb c "-" then (-1, s') else (1, s)
    | EmptyString => (1, s)
    end in
  match s with
  | String c s' =>
      match digit c with
      | Some d =>
          let '(n, rest) := if (d =? 0)%Z then (0, s') else digits d s' in
          let converted :=
            if (max_str_digits <? String.length s - String.length rest)%nat
            then Raise ValueError else Ok (sign * n, rest) in
          match rest with
          | String c' _ =>
              if Ascii.eqb c' "." || Ascii.eqb c' "e" || Ascii.eqb c' "E"
              then Raise JSONDecodeError else converted
          | EmptyString => converted
          end
      | None => Raise JSONDecodeError
      end
  | EmptyString => Raise JSONDecodeError
  end.

Fixpoint value (fuel : nat) (s : string) : res (pyval * string) :=
  match fuel with
  | O => Raise JSONDecodeError
  | S fuel' =>
      match s with
      | EmptyString => Raise JSONDecodeError
      | String c rest =>
          if Ascii.eqb c dq then
            match string_body rest with
            | Some (body, rest) => Ok (PyStr body, rest)
            | None => Raise JSONDecodeError
            end
          else if Ascii.eqb c "[" then
            match skip_ws rest with
            | String "]" rest => Ok (PyList [], rest)
            | rest =>
                (fix elements (n : nat) (s : string) (acc : list pyval) :=
                   match n with
                   | O => Raise JSONDecodeError
                   | S n' =>
                       match value fuel' s with
                       | Ok (v, rest) =>
                           match skip_ws rest with
                           | String "," rest =>
                               elements n' (skip_ws rest) (acc ++ [v])
                           | String "]" rest => Ok (PyList (acc ++ [v]), rest)
                           | _ => Raise JSONDecodeError
                           end
                       | Raise e => Raise e
                       end
                   end) fuel' rest []
            end
          else if Ascii.eqb c "{" then
            match skip_ws rest with
            | String "}" rest => Ok (PyDict [], rest)
            | rest =>
                (fix members (n : nat) (s : string) (acc : dict pyval) :=
                   match n with
                   | O => Raise JSONDecodeError
                   | S n' =>
                       match s with
                       | String "034" rest =>
                           match string_body rest with
                           | Some (key, rest) =>
                               match skip_ws rest with
                               | String ":" rest =>
                                   match value fuel' (skip_ws rest) with
                                   | Ok (v, rest) =>
                                       match skip_ws rest with
                                       | String "," rest =>
                                           members n' (skip_ws rest)
                                                   (dict_set key v acc)
                                       | String "}" rest =>
                                           Ok (PyDict (dict_set key v acc), rest)
                                       | _ => Raise JSONDecodeError
                                       end
                                   | Raise e => Raise e
                                   end
                               | _ => Raise JSONDecodeError
                               end
                           | None => Raise JSONDecodeError
                           end
                       | _ => Raise JSONDecodeError
                       end
                   end) fuel' rest []
            end
          else
            match strip_prefix "null" s, strip_prefix "true" s,
                  strip_prefix "false" s with
            | Some rest, _, _ => Ok (PyNone, rest)
            | _, Some rest, _ => Ok (PyBool true, rest)
            | _, _, Some rest => Ok (PyBool false, rest)
            | _, _, _ =>
                match integer s with
                | Ok (n, rest) => Ok (PyInt n, rest)
                | Raise e => Raise e
                end
            end
      end
  end.

Definition loads (s : string) : res pyval :=
  match value (S (String.length s)) (skip_ws s) with
  | Ok (v, rest) =>
      match skip_ws rest with
      | EmptyString => Ok v
      | _ => Raise JSONDecodeError
      end
  | Raise e => Raise e
  end.

(** [loads] inside a [try] that catches every [Exception]. *)
Definition loads_caught (s : string) : option pyval :=
  match loads s with
  | Ok v => Some v
  | Raise _ => None
  end.

End Json.

(* ===================================================================== *)
(** ** sdk_definition: registration from dicts, parsing of function calls *)
(* ===================================================================== *)

Module GemmaSDK.

(** *** FunctionRegistry, the entry points that take dicts *)

(** A [bool] field of a validated model takes a bool, the integers 0 and
    1, and the usual words for yes and no in any case. *)
Definition validate_bool (v : pyval) : res bool :=
  match v with
  | PyBool b => Ok b
  | PyInt 0 => Ok false
  | PyInt 1 => Ok true
  | PyStr s =>
      if bool_decide (lower s ∈ ["1"; "on"; "t"; "true"; "y"; "yes"]) then Ok true
      else if bool_decide (lower s ∈ ["0"; "off"; "f"; "false"; "n"; "no"])
      then Ok false
      else Raise ValidationError
  | _ => Raise ValidationError
  end.

(** Construction of the validated model [FunctionDefinition]. *)
Definition FunctionDefinition_new (name description parameters supports_images : pyval)
    (implementation : option (dict pyval -> Sdk.outcome))
    : res Sdk.FunctionDefinition :=
  match name, description, parameters with
  | PyStr n, PyStr d, PyDict p =>
      let! si := validate_bool supports_images in
      Ok {| Sdk.name := n; Sdk.description := d; Sdk.parameters := p;
            Sdk.supports_images := si; Sdk.implementation := implementation |}
  | _, _, _ => Raise ValidationError
  end.

(** [register_from_dict]; a raise leaves the registry as it was. *)
Definition register_from_dict (function_dict : dict pyval)
    (implementation : option (dict pyval -> Sdk.outcome))
    (functions : Sdk.FunctionRegistry) : res Sdk.FunctionRegistry :=
  let! name := dict_item "name" function_dict in
  let! description := dict_item "description" function_dict in
  let! parameters := dict_item "parameters" function_dict in
  let supports_images :=
    default (PyBool false) (dict_get "supports_images" function_dict) in
  let! function_def :=
    FunctionDefinition_new name description parameters supports_images
                           implementation in
  Ok (Sdk.register function_def functions).

(** The implementation [register_multiple] picks for a dict; the name is
    read only when [implementations] is truthy. *)
Definition pick_implementation (function_dict : dict pyval)
    (implementations : gmap string (dict pyval -> Sdk.outcome))
    : res (option (dict pyval -> Sdk.outcome)) :=
  if decide (implementations = ∅) then Ok None
  else
    let! name := dict_item "name" function_dict in
    match name with
    | PyStr n => Ok (implementations !! n)
    | PyList _ | PyDict _ => Raise TypeError
    | _ => Ok None
    end.

(** [register_multiple]: the registry as the loop leaves it, and the
    exception that ended the loop, if one did. *)
Fixpoint register_multiple (function_defs : list (dict pyval))
    (implementations : gmap string (dict pyval -> Sdk.outcome))
    (functions : Sdk.FunctionRegistry) : Sdk.FunctionRegistry * option exn :=
  match function_defs with
  | [] => (functions, None)
  | function_dict :: rest =>
      match
        (let! implementation := pick_implementation function_dict implementations in
         register_from_dict function_dict implementation functions)
      with
      | Ok functions' => register_multiple rest implementations functions'
      | Raise e => (functions, Some e)
      end
  end.

(** *** GemmaSDK.parse_function_call *)

(** [re.search(r'\[(.*?)\]', response)]: the text between the leftmost
    bracket that is closed on its line and the first closing bracket. *)
Fixpoint search_bracket (s : string) : option string :=
  match
    match s with
    | String c rest =>
        if Ascii.eqb c "[" then ReAct.lazy_dots "]" (fun _ => Some tt) rest
        else None
    | EmptyString => None
    end
  with
  | Some (g, _) => Some g
  | None =>
      match s with
      | String _ s' => search_bracket s'
      | EmptyString => None
      end
  end.

(** [s.endswith(c)] for one character. *)
Fixpoint ends_with (c : ascii) (s : string) : bool :=
  match s with
  | EmptyString => false
  | String a EmptyString => Ascii.eqb a c
  | String _ s' => ends_with c s'
  end.

(** [s[:-1]]. *)
Fixpoint drop_last (s : string) : string :=
  match s with
  | EmptyString => EmptyString
  | String _ EmptyString => EmptyString
  | String a s' => String a (drop_last s')
  end.

(** The quotes around a value are removed. *)
Definition unquote (value : string) : string :=
  let inner := drop_last (drop_str 1 value) in
  if startswith (String dq EmptyString) value && ends_with dq value then inner
  else if startswith "'" value && ends_with "'" value then inner
  else value.

Definition parse_parameters (params_text : string) : dict pyval :=
  foldl (fun params pair =>
           if contains "=" pair
           then match split1 "=" pair with
                | [key; value] =>
                    dict_set (strip key) (PyStr (unquote (strip value))) params
                | _ => params
                end
           else params)
        [] (split "," params_text).

(** The branch for the Python format; [PyNone] is the [None] that the
    function returns when nothing matches or an exception is caught. *)
Definition parse_python_call (response : string) : pyval :=
  match search_bracket response with
  | Some function_text =>
      match split "(" function_text with
      | first :: second :: _ =>
          let function_name := strip first in
          let params_text := default EmptyString (head (split ")" second)) in
          PyDict [("name", PyStr function_name);
                  ("parameters", PyDict (parse_parameters params_text))]
      | _ => PyNone
      end
  | None => PyNone
  end.

Section Calls.

(** [json.loads] as [parse_function_call] uses it, inside a [try] that
    catches every [Exception]: [None] stands for any raise. *)
Variable json_loads : string -> option pyval.
Variable json_dumps : option nat -> pyval -> string.
(** The tokenizer, [model.generate] and [decode] taken together. *)
Variable generate : string -> string.

Definition parse_function_call (response output_format : string) : pyval :=
  if String.eqb output_format "json"
  then default PyNone (json_loads response)
  else parse_python_call response.

Definition json_setup : string :=
  ReAct.lines
    ["You have access to functions. If you decide to invoke any of the function(s),";
     "you MUST put it in the format of";
     "{" +:+ String dq "name" +:+ String dq ": function name, "
       +:+ String dq "parameters"
       +:+ String dq ": dictionary of argument name and its value}";
     "";
     "You SHOULD NOT include any other text in the response if you call a function";
     ""].

Definition python_setup : string :=
  ReAct.lines
    ["You have access to functions. If you decide to invoke any of the function(s),";
     "you MUST put it in the format of";
     "[func_name1(params_name1=params_value1, params_name2=params_value2...), func_name2(params)]";
     "";
     "You SHOULD NOT include any other text in the response if you call a function";
     ""].

Definition create_function_calling_prompt (registry : Sdk.FunctionRegistry)
    (user_query output_format : string) : string :=
  let function_defs :=
    json_dumps (Some 2%nat) (PyList (PyDict <$> Sdk.get_all_dicts registry)) in
  let setup :=
    if String.eqb output_format "json" then json_setup else python_setup in
  setup +:+ String nl function_defs +:+ String nl user_query.

(** [execute_function] on whatever [parse_function_call] returned:
    subscripting a value that is not a dict is a [TypeError]. *)
Definition execute_function_call (registry : Sdk.FunctionRegistry)
    (function_call : pyval) : res Sdk.FunctionCallResult :=
  match function_call with
  | PyDict d => Sdk.execute_function registry d
  | _ => Raise TypeError
  end.

(** [GemmaSDK.execute], with model and tokenizer set: the result of the
    call, if one was made, and the response. *)
Definition execute (registry : Sdk.FunctionRegistry)
    (user_query output_format : string)
    : res (option Sdk.FunctionCallResult * string) :=
  let prompt := create_function_calling_prompt registry user_query output_format in
  let response := generate prompt in
  let function_call := parse_function_call response output_format in
  if truthy function_call
  then let! result := execute_function_call registry function_call in
       Ok (Some result, response)
  else Ok (None, response).

End Calls.

(** A definition with another implementation attached. *)
Definition bind_implementation (function_def : Sdk.FunctionDefinition)
    (implementation : option (dict pyval -> Sdk.outcome))
    : Sdk.FunctionDefinition :=
  {| Sdk.name := Sdk.name function_def;
     Sdk.description := Sdk.description function_def;
     Sdk.parameters := Sdk.parameters function_def;
     Sdk.supports_images := Sdk.supports_images function_def;
     Sdk.implementation := implementation |}.

(** The keys that [register_from_dict] subscripts, in the order in which
    it reads them. *)
Definition mandatory_keys : list string := ["name"; "description"; "parameters"].

End GemmaSDK.

(* ===================================================================== *)
(** ** Concrete inputs                                                   *)
(* ===================================================================== *)

Module Examples.

Definition object_schema : dict pyval :=
  [("type", PyStr "object"); ("properties", PyDict []); ("required", PyList [])].

(** A tool without parameters whose implementation returns [None]. *)
Definition noop : Sdk.FunctionDefinition :=
  {| Sdk.name := "noop"; Sdk.description := "Does nothing";
     Sdk.parameters := object_schema; Sdk.supports_images := false;
     Sdk.implementation := Some (fun _ => Sdk.Returns PyNone) |}.

(** A schema-only binding. *)
Definition declared_only : Sdk.FunctionDefinition :=
  {| Sdk.name := "lookup"; Sdk.description := "Looks something up";
     Sdk.parameters := object_schema; Sdk.supports_images := false;
     Sdk.implementation := None |}.

(** A tool without parameters, as the tests register one. *)
Definition ping : Sdk.FunctionDefinition :=
  {| Sdk.name := "ping"; Sdk.description := "Answers pong";
     Sdk.parameters := object_schema; Sdk.supports_images := false;
     Sdk.implementation :=
       Some (fun kw => match kw with
                       | [] => Sdk.Returns (PyStr "pong")
                       | _ => Sdk.Raises "ping() got an unexpected keyword argument"
                       end) |}.

(** The same name with another schema and another implementation. *)
Definition ping2 : Sdk.FunctionDefinition :=
  {| Sdk.name := "ping"; Sdk.description := "Answers with a count";
     Sdk.parameters :=
       [("type", PyStr "object");
        ("properties", PyDict [("count", PyDict [("type", PyStr "integer")])]);
        ("required", PyList [PyStr "count"])];
     Sdk.supports_images := false;
     Sdk.implementation := Some (fun _ => Sdk.Returns (PyInt 2)) |}.

(** A model that continues every prompt with the same text. *)
Definition says (continuation : string) : nat -> string -> string :=
  fun _ prompt => prompt +:+ continuation.

Definition line (s : string) : string := String nl s.

(** A response with an action line and a final answer. *)
Definition action_and_answer : string :=
  "Thought: I know it already."
  +:+ line "Action: I should use the tool `lookup` with input `key: 1`"
  +:+ line "Final Answer: 42".

(** A continuation whose action input is the JSON number 5. *)
Definition number_input : string :=
  " I will ask the tool."
  +:+ line "Action: I should use the tool `ping` with input `5`".

(** A continuation that calls the tool without parameters. *)
Definition empty_input : string :=
  " I will ask the tool."
  +:+ line "Action: I should use the tool `ping` with input `{}`".

(** The digit 1, written 4301 times. *)
Definition long_number : string :=
  string_of_list_ascii (repeat "1"%char 4301).

(** A response whose action input is that number. *)
Definition long_number_action : string :=
  "Thought: I will count."
  +:+ line ("Action: I should use the tool `ping` with input `"
            +:+ long_number +:+ "`")
  +:+ line "Final Answer: 42".

(** The action of the specification's parsing example. *)
Definition thought_and_action : string :=
  "Thought: X"
  +:+ line ("Action: I should use the tool `bar` with input `{"
            +:+ String dq "a" +:+ String dq ":1}`").

(** The flat-endpoint document of the specification's example. *)
Definition weather_docs : Converter.RestDocs :=
  {| Converter.endpoints := Some
       [{| Converter.e_name := Some "getWeather";
           Converter.e_description := Some "Get weather";
           Converter.e_parameters := Some
             [{| Converter.p_name := "location"; Converter.p_required := true;
                 Converter.p_schema :=
                   {| Converter.ps_type := Some "string";
                      Converter.ps_description := None;
                      Converter.ps_enum := None;
                      Converter.ps_items := None |} |}];
           Converter.image_processing := false |}] |}.

(** An operation whose body schema requires a property it does not
    declare. *)
Definition create_item : Converter.Operation :=
  {| Converter.operationId := Some "createItem";
     Converter.summary := Some "Create an item";
     Converter.op_description := None;
     Converter.op_parameters := None;
     Converter.requestBody := Some
       {| Converter.content := Some
            [("application/json",
              {| Converter.schema := Some
                   {| Converter.s_properties := None;
                      Converter.s_required := Some ["sku"] |} |})] |} |}.

Definition undeclared_required : Converter.OpenAPISpec :=
  {| Converter.paths := Some [("/items", [("post", create_item)])] |}.

(** An operation with a required query parameter and a body. *)
Definition get_weather : Converter.Operation :=
  {| Converter.operationId := None;
     Converter.summary := Some "Get <b>weather</b>";
     Converter.op_description := None;
     Converter.op_parameters := Some
       [{| Converter.p_name := "location"; Converter.p_required := true;
           Converter.p_schema :=
             {| Converter.ps_type := Some "string";
                Converter.ps_description := None;
                Converter.ps_enum := None; Converter.ps_items := None |} |}];
     Converter.requestBody := Some
       {| Converter.content := Some
            [("application/json",
              {| Converter.schema := Some
                   {| Converter.s_properties := Some
                        [("units",
                          {| Converter.ps_type := Some "unit";
                             Converter.ps_description := None;
                             Converter.ps_enum := None;
                             Converter.ps_items := None |})];
                      Converter.s_required := Some ["units"] |} |})] |} |}.

Definition weather_api : Converter.OpenAPISpec :=
  {| Converter.paths := Some [("/weather/{city}", [("get", get_weather)])] |}.

(** A model that answers every prompt with one text. *)
Definition answers (response : string) : string -> string := fun _ => response.

(** A function call in JSON that names a function and gives no
    parameters. *)
Definition call_without_parameters : string :=
  "{" +:+ String dq "name" +:+ String dq ": " +:+ String dq "ping"
  +:+ String dq "}".

(** [json.dumps] on the list of definitions of an empty registry. *)
Definition dumps_nothing : option nat -> pyval -> string := fun _ _ => "[]".

(** A definition whose parameters have no properties key. *)
Definition bare : Sdk.FunctionDefinition :=
  {| Sdk.name := "bare"; Sdk.description := "Has a bare schema";
     Sdk.parameters := [("type", PyStr "object")];
     Sdk.supports_images := false;
     Sdk.implementation := None |}.

(** A continuation that gives the final answer at once. *)
Definition answer_now : string :=
  " That is easy." +:+ line "Final Answer: It is up.".

(** A conversation after the constructor, a user message, an assistant
    message with a function call and the result of the call. *)
Definition weather_talk : Conversations.Conversation :=
  Conversations.built (fun _ => "sunny") (PyStr "You are a weather assistant.")
    [Conversations.AddUserMessage (PyStr "Weather in Paris?") "2024-01-01T10:00:00";
     Conversations.AddAssistantMessage (PyStr "")
       (PyDict [("name", PyStr "get_weather");
                ("parameters", PyDict [("city", PyStr "Paris")])])
       "2024-01-01T10:00:01";
     Conversations.AddFunctionResult
       (inl {| Sdk.function_name := "get_weather";
               Sdk.call_parameters := [("city", PyStr "Paris")];
               Sdk.result := PyStr "sunny"; Sdk.error := None |})
       "2024-01-01T10:00:02"].

(** A conversation whose system prompt was set to the empty string after
    its construction. *)
Definition unprompted : Conversations.Conversation :=
  {| Conversations.system_prompt := PyStr "";
     Conversations.messages :=
       [{| Conversations.role := PyStr "user";
           Conversations.content := PyStr "Hello!";
           Conversations.function_call := PyNone;
           Conversations.function_result := PyNone;
           Conversations.timestamp := PyStr "2024-01-01T10:00:00" |}] |}.


(** An image endpoint with an image parameter and processing options. *)
Definition detect_objects : Converter.Endpoint :=
  {| Converter.e_name := Some "detectObjects";
     Converter.e_description := Some "Detect objects in an image";
     Converter.e_parameters := Some
       [{| Converter.p_name := "image"; Converter.p_required := true;
           Converter.p_schema :=
             {| Converter.ps_type := Some "image";
                Converter.ps_description := None;
                Converter.ps_enum := None;
                Converter.ps_items := None |} |}];
     Converter.image_processing := true |}.

(** The endpoint of the flat example: no image parameter, no processing. *)
Definition get_weather_endpoint : Converter.Endpoint :=
  {| Converter.e_name := Some "getWeather";
     Converter.e_description := Some "Get weather";
     Converter.e_parameters := Some
       [{| Converter.p_name := "location"; Converter.p_required := true;
           Converter.p_schema :=
             {| Converter.ps_type := Some "string";
                Converter.ps_description := None;
                Converter.ps_enum := None;
                Converter.ps_items := None |} |}];
     Converter.image_processing := false |}.

End Examples.

(* ===================================================================== *)
(** ** Dispatch                                                           *)
(* ===================================================================== *)

Section Dispatch.

Import Sdk.

Implicit Types (registry : FunctionRegistry) (n : string) (kwargs : dict pyval).

Lemma execute_function_request registry n kwargs :
  execute_function registry (call_request n kwargs) =
  match get n registry with
  | None =>
      Ok {| function_name := n; call_parameters := kwargs; result := PyNone;
            error := Some ("Function '" +:+ n +:+ "' not found") |}
  | Some function_def =>
      match call function_def (PyDict kwargs) with
      | Returns r =>
          Ok {| function_name := n; call_parameters := kwargs; result := r;
                error := None |}
      | Raises msg =>
          Ok {| function_name := n; call_parameters := kwargs; result := PyNone;
                error := Some msg |}
      end
  end.
Proof.
  unfold execute_function, call_request; simpl.
  destruct (get n registry) as [fd|]; [|reflexivity].
  destruct (call fd (PyDict kwargs)); reflexivity.
Qed.

(** The result is the one just built: the facts about its fields follow
    by reading them off; an error result has no implementation to show. *)
Local Ltac this_result :=
  eexists; split; [reflexivity|];
  unfold value_set, error_set; simpl;
  repeat split; try tauto; try discriminate.

(** C1, as the code has it.  For every function name and every argument
    dict, [execute_function] returns one result and raises nothing; the
    result names the function and the arguments; value and error are never
    both populated; an error comes with no value; and without an error the
    value is what the bound implementation returned for these arguments
    (possibly [None]). *)
Theorem execute_function_total registry n kwargs :
  exists r,
    execute_function registry (call_request n kwargs) = Ok r /\
    function_name r = n /\ call_parameters r = kwargs /\
    ~ (value_set r /\ error_set r) /\
    (error_set r -> result r = PyNone) /\
    (error r = None ->
       exists function_def impl,
         get n registry = Some function_def /\
         implementation function_def = Some impl /\
         impl kwargs = Returns (result r)).
Proof.
  rewrite execute_function_request.
  destruct (get n registry) as [fd|] eqn:Hget.
  - unfold call. destruct (dict_has "self" kwargs); [this_result|].
    destruct (implementation fd) as [impl|] eqn:Himpl.
    + destruct (impl kwargs) as [v|msg] eqn:Hcall; this_result.
      intros _. by exists fd, impl.
    + this_result.
  - this_result.
Qed.

(** C1 as stated fails: an implementation that returns [None] gives a
    result with neither a value nor an error. *)
Lemma exactly_one_fails_on_None :
  exists r,
    execute_function (register Examples.noop ∅) (call_request "noop" []) = Ok r /\
    ~ exactly_one r.
Proof.
  eexists; split; [vm_compute; reflexivity|].
  unfold exactly_one, value_set, error_set; simpl.
  intros [[H _]|[H _]]; by apply H.
Qed.

(** C2, as the code has it.  A name that is not registered gives the
    error [Function '<name>' not found].  A binding without implementation
    gives the error [No implementation provided for function '<name>'],
    with the name of the binding, unless the arguments hold the key
    [self]: then the call fails before the binding is looked at, and the
    error is the text of that failure.  No value in any of these cases. *)
Theorem execute_function_unavailable registry n kwargs :
  (get n registry = None \/
   exists function_def,
     get n registry = Some function_def /\ implementation function_def = None) ->
  exists r,
    execute_function registry (call_request n kwargs) = Ok r /\
    result r = PyNone /\
    error r = Some
      match get n registry with
      | None => "Function '" +:+ n +:+ "' not found"
      | Some function_def =>
          if dict_has "self" kwargs
          then "FunctionDefinition.__call__() got multiple values for argument 'self'"
          else "No implementation provided for function '"
               +:+ name function_def +:+ "'"
      end.
Proof.
  intros H. rewrite execute_function_request.
  destruct H as [->|(fd & -> & Himpl)].
  - eexists; split; [reflexivity|]. by split.
  - unfold call. rewrite Himpl.
    destruct (dict_has "self" kwargs); eexists; (split; [reflexivity|]);
      by split.
Qed.

Lemma execute_function_unavailable_witness :
  exists r,
    execute_function (register Examples.declared_only ∅)
                     (call_request "lookup" [("key", PyInt 1)]) = Ok r /\
    result r = PyNone /\
    error r = Some "No implementation provided for function 'lookup'".
Proof.
  destruct (execute_function_unavailable (register Examples.declared_only ∅)
              "lookup" [("key", PyInt 1)]) as (r & Hr & Hv & He).
  - right. exists Examples.declared_only. split; reflexivity.
  - exists r. split; [exact Hr|]. split; [exact Hv|].
    rewrite He. vm_compute. reflexivity.
Defined.

(** C2 as stated fails: for a binding without implementation the error
    is not the not-found text. *)
Lemma unbound_error_is_not_not_found :
  exists r,
    execute_function (register Examples.declared_only ∅)
                     (call_request "lookup" []) = Ok r /\
    error r <> Some "Function 'lookup' not found".
Proof.
  eexists; split; [vm_compute; reflexivity|]. simpl. discriminate.
Qed.

(** A keyword argument named self never reaches the binding. *)
Example self_keyword_is_refused :
  execute_function (register Examples.declared_only ∅)
                   (call_request "lookup" [("self", PyInt 1)]) =
  Ok {| function_name := "lookup"; call_parameters := [("self", PyInt 1)];
        result := PyNone;
        error := Some "FunctionDefinition.__call__() got multiple values for argument 'self'" |}.
Proof. reflexivity. Qed.

End Dispatch.

(* ===================================================================== *)
(** ** Registry                                                           *)
(* ===================================================================== *)

Section Registry.

Import Sdk.

Lemma filter_key_absent {V} (l : list (string * V)) k :
  k ∉ l.*1 -> filter (fun item => item.1 = k) l = [].
Proof.
  induction l as [|[k' v'] l IH]; intros Hnotin; [reflexivity|].
  rewrite fmap_cons in Hnotin.
  apply not_elem_of_cons in Hnotin as [Hne Hnotin]. simpl in Hne.
  rewrite filter_cons_False by (intros Hk; simpl in Hk; congruence). by apply IH.
Qed.

Lemma filter_key_unique {V} (l : list (string * V)) k v :
  NoDup l.*1 -> (k, v) ∈ l -> filter (fun item => item.1 = k) l = [(k, v)].
Proof.
  induction l as [|[k' v'] l IH]; intros Hnd Hin.
  - by apply elem_of_nil in Hin.
  - apply NoDup_cons in Hnd as [Hnotin Hnd].
    apply elem_of_cons in Hin as [Heq|Hin].
    + injection Heq as <- <-.
      rewrite filter_cons_True by done. f_equal.
      by apply filter_key_absent.
    + assert (k' <> k) as Hne.
      { intros ->. apply Hnotin. apply list_elem_of_fmap. by exists (k, v). }
      rewrite filter_cons_False by (intros Hk; simpl in Hk; congruence). by apply IH.
Qed.

Lemma bindings_under_lookup (functions : FunctionRegistry) n function_def :
  functions !! n = Some function_def ->
  bindings_under n functions = [(n, function_def)].
Proof.
  intros H. apply filter_key_unique.
  - apply NoDup_fst_map_to_list.
  - by apply elem_of_map_to_list.
Qed.

(** C5.  Registering under a name that is taken replaces the binding:
    after two registrations under one name the registry is the one the
    second registration alone gives, a lookup of the name returns the
    second binding, and exactly one binding, the second, is stored under
    the name. *)
Theorem register_overwrites (registry : FunctionRegistry)
    (first second : FunctionDefinition) :
  name first = name second ->
  let registry' := register second (register first registry) in
  registry' = register second registry /\
  get (name second) registry' = Some second /\
  bindings_under (name second) registry' = [(name second, second)].
Proof.
  intros Hname registry'. subst registry'. unfold register, get.
  rewrite Hname, insert_insert_eq.
  split; [reflexivity|]. split.
  - apply lookup_insert_eq.
  - apply bindings_under_lookup, lookup_insert_eq.
Qed.

Lemma register_overwrites_witness :
  let registry' := register Examples.ping2 (register Examples.ping ∅) in
  registry' = register Examples.ping2 ∅ /\
  get "ping" registry' = Some Examples.ping2 /\
  bindings_under "ping" registry' = [("ping", Examples.ping2)].
Proof.
  apply (register_overwrites ∅ Examples.ping Examples.ping2). reflexivity.
Defined.

End Registry.

(* ===================================================================== *)
(** ** Schema conversion                                                  *)
(* ===================================================================== *)

Section Conversion.

Import Converter.

(** The loop over a parameter list that the three converters share. *)
Lemma parameters_loop_declared (def : Param -> ParamDef) (params : list Param)
    (parameters : gmap string ParamDef) (required : list string) :
  Forall (fun n => is_Some (parameters !! n)) required ->
  Forall (fun n =>
            is_Some ((foldl (fun '(parameters, required) param =>
                        (<[p_name param := def param]> parameters,
                         if p_required param then required ++ [p_name param]
                         else required))
                      (parameters, required) params).1 !! n))
         (foldl (fun '(parameters, required) param =>
                   (<[p_name param := def param]> parameters,
                    if p_required param then required ++ [p_name param]
                    else required))
                (parameters, required) params).2.
Proof.
  revert parameters required.
  induction params as [|param params IH]; intros parameters required H;
    [exact H|].
  simpl. apply IH.
  assert (Forall (fun n => is_Some (<[p_name param := def param]> parameters !! n))
                 required) as H'.
  { eapply Forall_impl; [exact H|]. intros n Hn.
    apply lookup_insert_is_Some. destruct (decide (p_name param = n)); auto. }
  destruct (p_required param); [|exact H'].
  apply Forall_app. split; [exact H'|].
  apply Forall_singleton. rewrite lookup_insert_eq. by eexists.
Qed.

Lemma properties_loop_declared (props : dict PropSchema) n
    (properties : gmap string ParamDef) :
  is_Some (properties !! n) \/ dict_has n props = true ->
  is_Some (foldl (fun properties '(prop_name, prop_schema) =>
                    <[prop_name := convert_prop prop_schema]> properties)
                 properties props !! n).
Proof.
  revert properties.
  induction props as [|[k v] props IH]; intros properties H; simpl.
  - destruct H as [H|H]; [exact H|discriminate].
  - apply IH. unfold dict_has in H. simpl in H.
    destruct (decide (n = k)) as [->|Hne].
    + left. rewrite lookup_insert_eq. by eexists.
    + destruct H as [H|H]; [|by right].
      left. apply lookup_insert_is_Some. auto.
Qed.

Lemma convert_operation_declared path method operation :
  body_required_declared operation = true ->
  required_declared (convert_operation path method operation).
Proof.
  intros Hbody. unfold required_declared, convert_operation.
  pose proof (parameters_loop_declared _convert_parameter
                (default [] (op_parameters operation)) ∅ [] (Forall_nil_2 _)) as Hloop.
  destruct (foldl _ (∅, []) (default [] (op_parameters operation)))
    as [parameters required] eqn:Hfold.
  simpl in Hloop. unfold body_required_declared in Hbody.
  destruct (requestBody operation) as [body|]; [|exact Hloop].
  destruct (dict_get "application/json" (default [] (content body)))
    as [media|]; [|exact Hloop].
  simpl. apply Forall_app. split.
  - eapply Forall_impl; [exact Hloop|]. intros n Hn.
    apply lookup_union_is_Some. by right.
  - destruct (schema media) as [sch|]; simpl; [|by apply Forall_nil_2].
    apply Is_true_true_2, forallb_True in Hbody.
    eapply Forall_impl; [exact Hbody|]. intros n Hn. simpl in Hn.
    apply lookup_union_is_Some. left.
    apply properties_loop_declared. right. by apply Is_true_true_1.
Qed.

Lemma convert_rest_endpoint_declared endpoint :
  required_declared (convert_rest_endpoint endpoint).
Proof.
  unfold required_declared, convert_rest_endpoint.
  pose proof (parameters_loop_declared rest_param_def
                (default [] (e_parameters endpoint)) ∅ [] (Forall_nil_2 _)) as Hloop.
  destruct (foldl _ (∅, []) (default [] (e_parameters endpoint)))
    as [parameters required]. exact Hloop.
Qed.

Lemma convert_image_endpoint_declared endpoint :
  required_declared (convert_image_endpoint endpoint).
Proof.
  unfold required_declared, convert_image_endpoint.
  pose proof (parameters_loop_declared image_param_def
                (default [] (e_parameters endpoint)) ∅ [] (Forall_nil_2 _)) as Hloop.
  destruct (foldl _ (∅, []) (default [] (e_parameters endpoint)))
    as [parameters required]. simpl in *.
  destruct (image_processing endpoint); [|exact Hloop].
  eapply Forall_impl; [exact Hloop|]. intros n Hn.
  apply lookup_insert_is_Some.
  destruct (decide ("image_processing_options" = n)); auto.
Qed.

(** C3, as the code has it.  The endpoint converters (flat and image)
    always produce schemas whose [required] names are keys of
    [properties]; the OpenAPI converter does so when the [required] list
    of every converted operation's body schema names properties that the
    body schema declares. *)
Theorem convert_required_declared (source : document) :
  bodies_declare_required source = true ->
  Forall required_declared (convert source).
Proof.
  destruct source as [openapi_spec|rest_docs|api_spec]; simpl; intros Hwf.
  - unfold _convert_openapi_to_gemma.
    apply Is_true_true_2, forallb_True in Hwf.
    apply Forall_bind. eapply Forall_impl; [exact Hwf|].
    intros [path path_item] Hitem. simpl.
    apply forallb_True in Hitem.
    apply Forall_bind. eapply Forall_impl; [exact Hitem|].
    intros [method operation] Hop. simpl.
    case_bool_decide as Hm; [|by apply Forall_nil_2].
    apply Forall_singleton. apply convert_operation_declared.
    simpl in Hop. by apply Is_true_true_1.
  - unfold convert_rest. apply Forall_fmap, Forall_forall.
    intros endpoint _. apply convert_rest_endpoint_declared.
  - unfold convert_image_api. apply Forall_fmap, Forall_forall.
    intros endpoint _. apply convert_image_endpoint_declared.
Qed.

Lemma convert_required_declared_witness :
  Forall required_declared (convert (OpenAPIDocument Examples.weather_api)).
Proof.
  apply (convert_required_declared (OpenAPIDocument Examples.weather_api)).
  vm_compute. reflexivity.
Defined.

(** C3 as stated fails: a body schema that requires a property it does
    not declare is carried over as it is. *)
Lemma required_not_declared :
  ~ Forall required_declared
      (convert (OpenAPIDocument Examples.undeclared_required)).
Proof.
  intros H. apply Forall_forall with (x := convert_operation "/items" "post" Examples.create_item) in H.
  - unfold required_declared in H. vm_compute in H.
    inversion H as [|? ? [x Hx] _]. discriminate Hx.
  - vm_compute. left.
Qed.

End Conversion.

(* ===================================================================== *)
(** ** Conversations                                                      *)
(* ===================================================================== *)

Section ConversationStore.

Import Conversations.

Variable py_str : pyval -> string.

Lemma py_or_truthy v d : truthy v = true -> py_or v d = v.
Proof. unfold py_or. by intros ->. Qed.

Lemma init_truthy sp : truthy (system_prompt (init sp)) = true.
Proof.
  unfold init, py_or; simpl. destruct (truthy sp) eqn:H; [exact H|reflexivity].
Qed.

Lemma add_function_result_system_prompt fr now self self' :
  add_function_result py_str fr now self = Ok self' ->
  system_prompt self' = system_prompt self.
Proof.
  unfold add_function_result.
  destruct (match fr with
            | inl r => Ok (Sdk.result_dict r)
            | inr (PyDict d) => Ok d
            | inr _ => Raise TypeError
            end) as [d|]; simpl; [|discriminate].
  destruct (dict_item "function_name" d); simpl; [|discriminate].
  destruct (dict_item "result" d); simpl; [|discriminate].
  intros [= <-]. reflexivity.
Qed.

Lemma apply_system_prompt self o :
  system_prompt (apply py_str self o) = system_prompt self.
Proof.
  destruct o as [c now|c fc now|fr now|]; simpl; try reflexivity.
  destruct (add_function_result py_str fr now self) eqn:H; [|reflexivity].
  by eapply add_function_result_system_prompt.
Qed.

(** The constructor and the operations leave a truthy system prompt: the
    round trip below covers every conversation made with them. *)
Lemma built_truthy sp calls :
  truthy (system_prompt (built py_str sp calls)) = true.
Proof.
  unfold built.
  assert (forall c, system_prompt (foldl (apply py_str) c calls) = system_prompt c) as H.
  { induction calls as [|o calls IH]; intros c; [reflexivity|].
    simpl. by rewrite IH, apply_system_prompt. }
  rewrite H. apply init_truthy.
Qed.

Lemma message_of_vars now message :
  message_of now (PyDict (message_vars message)) = Ok message.
Proof. destruct message. reflexivity. Qed.

Lemma append_messages_vars now i ms conversation :
  append_messages now i ((fun m => PyDict (message_vars m)) <$> ms) conversation =
  Ok {| system_prompt := system_prompt conversation;
        messages := messages conversation ++ ms |}.
Proof.
  revert i conversation.
  induction ms as [|m ms IH]; intros i conversation.
  - simpl. rewrite app_nil_r. by destruct conversation.
  - rewrite fmap_cons. cbn [append_messages].
    rewrite message_of_vars. cbn [Py.bind]. rewrite IH. simpl.
    by rewrite <- app_assoc.
Qed.

(** C4, as the code has it.  For every conversation whose system prompt
    is truthy, as the constructor leaves it, [from_dict] of [to_dict]
    returns, and returns the same conversation: the same system prompt and
    the same list of messages, hence their number, their order and every
    field of every message (role, content, function call, function result,
    timestamp), whatever the clock reads. *)
Theorem to_dict_from_dict_roundtrip (now : nat -> string)
    (conversation : Conversation) :
  truthy (system_prompt conversation) = true ->
  from_dict now (to_dict conversation) = Ok conversation.
Proof.
  intros H. unfold from_dict, to_dict. simpl.
  rewrite append_messages_vars. simpl.
  unfold py_or. rewrite H. by destruct conversation.
Qed.

(** C10.  A conversation created with no system prompt ([None]) or with
    the empty one has the default system prompt; a non-empty one is
    stored as given; [create_conversation] stores and returns the
    conversation that the constructor builds. *)
Theorem system_prompt_default (s : string) :
  s <> "" ->
  system_prompt (init PyNone) = PyStr "You are a helpful AI assistant." /\
  system_prompt (init (PyStr "")) = PyStr "You are a helpful AI assistant." /\
  system_prompt (init (PyStr s)) = PyStr s /\
  (forall conversation_id sp conversations,
     (create_conversation conversation_id sp conversations).1 = init sp /\
     get_conversation conversation_id
       (create_conversation conversation_id sp conversations).2 = Some (init sp)).
Proof.
  intros Hs. repeat split.
  - unfold init. rewrite py_or_truthy; [reflexivity|].
    simpl. destruct s; [done|reflexivity].
  - unfold get_conversation, create_conversation. simpl.
    apply lookup_insert_eq.
Qed.

Lemma system_prompt_default_witness :
  system_prompt (init (PyStr "You are a weather assistant.")) =
  PyStr "You are a weather assistant.".
Proof.
  apply (system_prompt_default "You are a weather assistant."). discriminate.
Defined.

End ConversationStore.

Lemma to_dict_from_dict_roundtrip_witness :
  Conversations.from_dict (fun _ => "2024-01-01T10:00:09")
    (Conversations.to_dict Examples.weather_talk)
  = Ok Examples.weather_talk.
Proof.
  apply (to_dict_from_dict_roundtrip (fun _ => "2024-01-01T10:00:09")
           Examples.weather_talk).
  reflexivity.
Defined.

(** C4 as stated fails: a conversation whose system prompt has been set
    to the empty string comes back with the default system prompt. *)
Lemma falsy_system_prompt_not_restored :
  Conversations.from_dict (fun _ => "2024-01-01T10:00:09")
    (Conversations.to_dict Examples.unprompted)
  = Ok {| Conversations.system_prompt := PyStr "You are a helpful AI assistant.";
          Conversations.messages := Conversations.messages Examples.unprompted |} /\
  Conversations.from_dict (fun _ => "2024-01-01T10:00:09")
    (Conversations.to_dict Examples.unprompted)
  <> Ok Examples.unprompted.
Proof. split; [reflexivity|discriminate]. Qed.

(* ===================================================================== *)
(** ** Parsing the text of the model                                      *)
(* ===================================================================== *)

Section Parsing.

Import ReAct.

Lemma dict_get_set {V} (k k' : string) (v : V) (d : dict V) :
  dict_get k (dict_set k' v d) =
  if decide (k = k') then Some v else dict_get k d.
Proof.
  induction d as [|[k0 v0] d IH]; simpl.
  - destruct (decide (k = k')); reflexivity.
  - destruct (decide (k' = k0)) as [->|Hne]; simpl.
    + destruct (decide (k = k0)); reflexivity.
    + rewrite IH. destruct (decide (k = k0)) as [->|]; [|reflexivity].
      destruct (decide (k0 = k')); congruence.
Qed.

Lemma find_sub_colon c s :
  find_sub ":" (String c s) =
  if Ascii.eqb c ":" then Some (EmptyString, s)
  else match find_sub ":" s with
       | Some (before, rest) => Some (String c before, rest)
       | None => None
       end.
Proof.
  cbn [find_sub strip_prefix]. rewrite (Ascii.eqb_sym ":" c).
  destruct (Ascii.eqb c ":"); reflexivity.
Qed.

(** Cutting at the first colon, by [split] and by [find_sub]. *)
Lemma split1_find_sub (segment key value : string) :
  find_sub ":" segment = Some (key, value) ->
  split1 ":" segment = [key; value].
Proof.
  revert key. induction segment as [|c segment IH]; intros key.
  - discriminate.
  - rewrite find_sub_colon. cbn [split1].
    destruct (Ascii.eqb c ":").
    + intros [= <- <-]. reflexivity.
    + destruct (find_sub ":" segment) as [[before rest]|]; [|discriminate].
      intros [= <- <-]. by rewrite (IH before eq_refl).
Qed.

(** [str.strip] trims as the specification says. *)
Lemma lstrip_drop_blanks s :
  lstrip s = string_of_list_ascii (drop_blanks (list_ascii_of_string s)).
Proof.
  induction s as [|c s IH]; [reflexivity|]. cbn [lstrip list_ascii_of_string
    drop_blanks]. destruct (is_space c); [exact IH|].
  cbn [string_of_list_ascii]. by rewrite string_of_list_ascii_of_string.
Qed.

Lemma drop_blanks_snoc l c :
  drop_blanks (l ++ [c]) =
  match drop_blanks l with
  | [] => if is_space c then [] else [c]
  | r => r ++ [c]
  end.
Proof.
  induction l as [|a l IH]; [reflexivity|]. cbn [app drop_blanks].
  destruct (is_space a); [exact IH|reflexivity].
Qed.

Lemma rstrip_drop_blanks s :
  rstrip s =
  string_of_list_ascii (reverse (drop_blanks (reverse (list_ascii_of_string s)))).
Proof.
  induction s as [|c s IH]; [reflexivity|].
  cbn [rstrip list_ascii_of_string]. rewrite IH, reverse_cons, drop_blanks_snoc.
  destruct (drop_blanks (reverse (list_ascii_of_string s))) as [|a r].
  - cbn. by destruct (is_space c).
  - rewrite reverse_snoc. cbn [string_of_list_ascii].
    destruct (string_of_list_ascii (reverse (a :: r))) eqn:Hr; [|reflexivity].
    apply (f_equal list_ascii_of_string) in Hr.
    rewrite list_ascii_of_string_of_list_ascii in Hr.
    apply (f_equal length) in Hr. rewrite length_reverse in Hr. discriminate Hr.
Qed.

Lemma strip_trimmed s : strip s = trimmed s.
Proof.
  unfold strip, trimmed.
  by rewrite rstrip_drop_blanks, lstrip_drop_blanks,
    list_ascii_of_string_of_list_ascii.
Qed.

Lemma parse_pairs_step (action_input : dict pyval) (segments : list string) k :
  dict_get k
    (foldl (fun action_input pair =>
              if contains ":" pair
              then match split1 ":" pair with
                   | [key; value] =>
                       dict_set (strip key) (PyStr (strip value)) action_input
                   | _ => action_input
                   end
              else action_input) action_input segments) =
  match (list_to_map (reverse
           (omap (fun segment =>
                    match find_sub ":" segment with
                    | Some (key, value) => Some (trimmed key, trimmed value)
                    | None => None
                    end) segments)) : gmap string string) !! k with
  | Some v => Some (PyStr v)
  | None => dict_get k action_input
  end.
Proof.
  revert action_input.
  induction segments as [|segment segments IH]; intros action_input.
  - reflexivity.
  - cbn [foldl omap list_omap]. rewrite IH. unfold contains.
    destruct (find_sub ":" segment) as [[key value]|] eqn:Hcut.
    + rewrite (split1_find_sub _ _ _ Hcut), !strip_trimmed.
      clear IH. rewrite reverse_cons, list_to_map_app, lookup_union.
      destruct (list_to_map (reverse _) !! k) as [v|].
      * by rewrite union_Some_l.
      * rewrite (left_id None _), dict_get_set. simpl.
        destruct (decide (k = trimmed key)) as [->|Hne].
        -- by rewrite lookup_insert_eq.
        -- by rewrite lookup_insert_ne, lookup_empty.
    + reflexivity.
Qed.

Lemma dict_set_values {V} (P : V -> Prop) k v (d : dict V) :
  P v -> Forall (fun item => P item.2) d ->
  Forall (fun item => P item.2) (dict_set k v d).
Proof.
  intros Hv. induction d as [|[k0 v0] d IH]; intros Hd; simpl.
  - by constructor.
  - apply Forall_cons in Hd as [H0 Hd].
    destruct (decide (k = k0)); constructor; auto.
Qed.

Lemma dict_set_keys {V} k (v : V) (d : dict V) :
  (dict_set k v d).*1 = if decide (k ∈ d.*1) then d.*1 else d.*1 ++ [k].
Proof.
  induction d as [|[k0 v0] d IH]; cbn [dict_set].
  - rewrite decide_False; [done|]. apply not_elem_of_nil.
  - rewrite (fmap_cons fst (k0, v0) d). cbn [fst].
    destruct (decide (k = k0)) as [->|Hne].
    + rewrite decide_True; [done|left].
    + rewrite fmap_cons, IH. cbn [fst].
      destruct (decide (k ∈ d.*1)) as [Hin|Hnin].
      * rewrite decide_True; [done|by right].
      * rewrite decide_False; [done|].
        intros [?|?]%elem_of_cons; done.
Qed.

Lemma dict_set_NoDup {V} k (v : V) (d : dict V) :
  NoDup d.*1 -> NoDup (dict_set k v d).*1.
Proof.
  intros Hd. rewrite dict_set_keys. destruct (decide (k ∈ d.*1)); [done|].
  apply NoDup_app. split; [done|]. split.
  - intros x Hx Hk. apply list_elem_of_singleton in Hk. by subst.
  - apply NoDup_singleton.
Qed.

(** The loop of the fallback keeps what [dict_set] keeps. *)
Lemma parse_pairs_invariant (I : dict pyval -> Prop) (segments : list string)
    (action_input : dict pyval) :
  (forall k s d, I d -> I (dict_set k (PyStr s) d)) ->
  I action_input ->
  I (foldl (fun action_input pair =>
              if contains ":" pair
              then match split1 ":" pair with
                   | [key; value] =>
                       dict_set (strip key) (PyStr (strip value)) action_input
                   | _ => action_input
                   end
              else action_input) action_input segments).
Proof.
  intros Hset. revert action_input.
  induction segments as [|segment segments IH]; intros action_input Hd;
    [exact Hd|].
  cbn [foldl]. apply IH.
  destruct (contains ":" segment); [|exact Hd].
  destruct (split1 ":" segment) as [|key [|value [|]]]; auto.
Qed.

Lemma parse_pairs_flat payload :
  Forall (fun item : string * pyval => exists s, item.2 = PyStr s)
         (parse_pairs payload).
Proof.
  unfold parse_pairs.
  apply (parse_pairs_invariant
           (Forall (fun item : string * pyval => exists s, item.2 = PyStr s)));
    [|constructor].
  intros k s d Hd.
  apply (dict_set_values (fun v => exists s, v = PyStr s)); [by eexists|exact Hd].
Qed.

Lemma parse_pairs_keys payload : NoDup (parse_pairs payload).*1.
Proof.
  unfold parse_pairs.
  apply (parse_pairs_invariant (fun d => NoDup d.*1)); [|constructor].
  intros k s d. apply dict_set_NoDup.
Qed.

(** C9, as the code has it.  A payload on which the JSON decoder raises
    [JSONDecodeError] is parsed into a dict that holds, under each key, the
    string that the specification's map holds: the payload split on
    commas, each segment cut at its first colon, both sides trimmed.  The
    dict is flat: every value is a string and no key occurs twice.  The
    payload [a:1, b:2] gives the items a: 1 and b: 2.  A payload on which
    the decoder raises anything else is not parsed at all: the exception
    leaves the parser. *)
Theorem fallback_parse (json_loads : string -> res pyval) (payload : string) :
  (json_loads payload = Raise JSONDecodeError ->
   exists d,
     parse_action_input json_loads payload = Ok (PyDict d) /\
     (forall k, dict_get k d = PyStr <$> fallback_map payload !! k) /\
     Forall (fun item => exists s, item.2 = PyStr s) d /\
     NoDup d.*1 /\
     (payload = "a:1, b:2" -> d = [("a", PyStr "1"); ("b", PyStr "2")])) /\
  (forall e,
     json_loads payload = Raise e -> e <> JSONDecodeError ->
     parse_action_input json_loads payload = Raise e).
Proof.
  split.
  - intros Hfail. exists (parse_pairs payload).
    unfold parse_action_input. rewrite Hfail. split; [reflexivity|].
    split; [|split; [|split]].
    + intros k. unfold parse_pairs, fallback_map, fallback_pairs.
      rewrite parse_pairs_step.
      by destruct (list_to_map _ !! k).
    + apply parse_pairs_flat.
    + apply parse_pairs_keys.
    + intros ->. reflexivity.
  - intros e He Hne. unfold parse_action_input. rewrite He. by destruct e.
Qed.

Lemma fallback_parse_witness :
  parse_action_input Json.loads "a:1, b:2" =
  Ok (PyDict [("a", PyStr "1"); ("b", PyStr "2")]) /\
  (exists d,
     parse_action_input Json.loads "a : 1 , b:2" = Ok (PyDict d) /\
     dict_get "a" d = Some (PyStr "1") /\ dict_get "b" d = Some (PyStr "2")).
Proof.
  split.
  - destruct (proj1 (fallback_parse Json.loads "a:1, b:2"))
      as (d & Hd & _ & _ & _ & Hex).
    + vm_compute. reflexivity.
    + rewrite Hd. do 2 f_equal. apply Hex. reflexivity.
  - destruct (proj1 (fallback_parse Json.loads "a : 1 , b:2"))
      as (d & Hd & Hk & _).
    + vm_compute. reflexivity.
    + exists d. split; [exact Hd|]. rewrite !Hk. split; vm_compute; reflexivity.
Defined.

End Parsing.

(** C9 as stated fails: an integer of 4301 digits is a payload that the
    decoder does not decode, and it is not parsed into a map either: the
    [ValueError] of the conversion leaves the parser. *)
Lemma no_fallback_beyond_digit_limit :
  Json.loads Examples.long_number = Raise ValueError /\
  ReAct.parse_react_response Json.loads Examples.long_number_action
  = Raise ValueError.
Proof. split; vm_compute; reflexivity. Qed.

(* ===================================================================== *)
(** ** What a parse populates                                             *)
(* ===================================================================== *)

Section Populated.

Import ReAct.

Variable json_loads : string -> res pyval.

Lemma match_action_contains s groups :
  match_action s = Some groups -> contains action_prefix s = true.
Proof.
  unfold match_action, contains.
  destruct (strip_prefix action_prefix s) as [rest|] eqn:Hp; [|discriminate].
  intros _. destruct s; cbn [find_sub]; by rewrite Hp.
Qed.

Lemma contains_cons p c s :
  contains p s = true -> contains p (String c s) = true.
Proof.
  unfold contains. cbn [find_sub].
  destruct (strip_prefix p (String c s)); [reflexivity|].
  by destruct (find_sub p s) as [[before rest]|].
Qed.

Lemma search_action_contains s groups :
  search_action s = Some groups -> contains action_prefix s = true.
Proof.
  induction s as [|c s IH]; cbn [search_action];
    destruct (match_action _) eqn:Hm;
    try (intros _; by eapply match_action_contains); [discriminate|].
  intros H. by apply contains_cons, IH.
Qed.

(** C6, as the code has it.  When the parse returns, action arguments
    are populated only together with an action name, and an action name
    only when the response contains the opening text of the action line;
    the final answer is populated exactly when the response contains
    [Final Answer:], whether or not an action was parsed; so the parse
    populates both only when the response carries both markers.  The parse
    returns unless the response has an action line on whose payload the
    decoder raises something other than [JSONDecodeError]: then that
    exception leaves the parse, whatever else the response holds. *)
Theorem parse_populated (response : string) :
  match parse_react_response json_loads response with
  | Ok p =>
      (action_input p <> PyNone -> action p <> None) /\
      (action p <> None -> contains action_prefix response = true) /\
      (final_answer p <> None <-> contains "Final Answer:" response = true) /\
      (action_populated p /\ final_answer p <> None ->
       contains action_prefix response = true /\
       contains "Final Answer:" response = true) /\
      match search_action response with
      | Some (_, payload) =>
          json_loads (strip payload) = Ok (action_input p) \/
          json_loads (strip payload) = Raise JSONDecodeError
      | None => True
      end
  | Raise e =>
      e <> JSONDecodeError /\
      exists tool payload,
        search_action response = Some (tool, payload) /\
        json_loads (strip payload) = Raise e
  end.
Proof.
  unfold parse_react_response, parse_action_input.
  assert (final_answer_iff :
            (strip <$> search_final_answer response) <> None <->
            contains "Final Answer:" response = true).
  { unfold search_final_answer, contains.
    destruct (find_sub "Final Answer:" response) as [[before rest]|]; simpl;
      split; intros H; done. }
  destruct (search_action response) as [[tool payload]|] eqn:Hs.
  - pose proof (search_action_contains _ _ Hs) as Hprefix.
    destruct (json_loads (strip payload)) as [v|e] eqn:Hloads.
    + cbn [Py.bind action action_input final_answer].
      split; [done|]. split; [done|]. split; [exact final_answer_iff|].
      split; [|by left].
      intros [_ Hf]. split; [done|by apply final_answer_iff].
    + assert (e = JSONDecodeError \/ e <> JSONDecodeError) as [->|Hne]
        by (destruct e; (by left) || (by right)).
      * cbn [Py.bind action action_input final_answer].
        split; [done|]. split; [done|]. split; [exact final_answer_iff|].
        split; [|by right].
        intros [_ Hf]. split; [done|by apply final_answer_iff].
      * replace (match e with JSONDecodeError => _ | _ => Raise e end)
          with (@Raise pyval e) by (by destruct e).
        cbn [Py.bind]. split; [exact Hne|]. by exists tool, payload.
  - cbn [Py.bind action action_input final_answer].
    split; [done|]. split; [done|]. split; [exact final_answer_iff|].
    split; [|done]. by intros [[? _] _].
Qed.

End Populated.

(** C6 as stated fails: one response can carry an action line and a
    final answer, and the parse populates both. *)
Lemma both_populated :
  exists p,
    ReAct.parse_react_response Json.loads Examples.action_and_answer = Ok p /\
    ~ ReAct.at_most_one p.
Proof.
  eexists. split; [vm_compute; reflexivity|].
  intros H. apply H. vm_compute. repeat split; discriminate.
Qed.

(* ===================================================================== *)
(** ** The ReAct loop                                                     *)
(* ===================================================================== *)

Section Loop.

Import ReAct.

Variable json_loads : string -> res pyval.
Variable json_dumps : option nat -> pyval -> string.
Variable py_str : pyval -> string.
Variable generate : nat -> string -> string.

Abbreviation turn_loop' := (turn_loop json_loads json_dumps py_str generate).
Abbreviation execute' := (execute json_loads json_dumps py_str generate).
Abbreviation execute_action' := (execute_action json_dumps py_str).

(** The loop asks the model at most [remaining] more times. *)
Lemma turn_loop_turns registry remaining turn conversation history :
  (turn <= turns (turn_loop' registry remaining turn conversation history)
        <= turn + remaining)%nat.
Proof.
  revert turn conversation history.
  induction remaining as [|remaining IH]; intros turn conversation history;
    cbn [turn_loop].
  - simpl. lia.
  - destruct (parse_react_response _ _) as [parsed|e]; [|simpl; lia].
    destruct (truthy_str _); [simpl; lia|].
    destruct (_ && _); [|simpl; lia].
    destruct (execute_action _ _ _ _ _); [|simpl; lia].
    match goal with |- context [turn_loop _ _ _ _ _ remaining (S turn) ?c ?h] =>
      specialize (IH (S turn) c h) end.
    lia.
Qed.

(** [execute] asks the model at most [max_turns] times, whatever the
    model says and whether it returns or raises. *)
Lemma execute_turns_bounded registry history user_query max_turns :
  (turns (execute' registry history user_query max_turns) <= max_turns)%nat.
Proof.
  unfold execute. destruct (create_react_prompt _ _ _ _); [|simpl; lia].
  pose proof (turn_loop_turns registry max_turns 0 a history). lia.
Qed.

(** A dispatch with a dict of arguments returns an observation. *)
Lemma execute_action_dict registry action kwargs :
  exists observation,
    execute_action' registry action (PyDict kwargs) = Ok observation.
Proof.
  unfold execute_action.
  change [("name", PyStr action); ("parameters", PyDict kwargs)]
    with (Sdk.call_request action kwargs).
  rewrite execute_function_request.
  destruct (Sdk.get action registry) as [fd|];
    [destruct (Sdk.call fd (PyDict kwargs)) as [v|msg]|];
    cbn [Py.bind Sdk.error Sdk.result];
    (destruct (truthy_str _); [by eexists|]); try by eexists.
  destruct v; by eexists.
Qed.

(** The part of C8 that holds: a turn whose parse has no final answer, an
    action name and a non-empty dict of arguments dispatches the action,
    records the observation and goes on with the next turn. *)
Lemma act_turn registry remaining turn conversation history parsed a item kwargs :
  let response := generate turn conversation in
  parse_react_response json_loads
    (drop_str (String.length conversation) response) = Ok parsed ->
  truthy_str (final_answer parsed) = false ->
  action parsed = Some a -> a <> "" ->
  action_input parsed = PyDict (item :: kwargs) ->
  exists observation,
    execute_action' registry a (PyDict (item :: kwargs)) = Ok observation /\
    turn_loop' registry (S remaining) turn conversation history =
    turn_loop' registry remaining (S turn)
      (response +:+ String nl "Observation: " +:+ observation
       +:+ String nl "Thought:")
      (((history ++ ["Thought: " +:+ show (thought parsed)])
        ++ ["Action: I should use the tool `" +:+ a +:+ "` with input `"
            +:+ json_dumps None (PyDict (item :: kwargs)) +:+ "`"])
       ++ ["Observation: " +:+ observation]).
Proof.
  intros response Hparsed Hfinal Haction Hname Hinput.
  destruct (execute_action_dict registry a (item :: kwargs)) as [obs Hobs].
  exists obs. split; [exact Hobs|].
  cbn [turn_loop]. fold response. rewrite Hparsed.
  rewrite Hfinal, Haction, Hinput.
  cbn [truthy_str truthy show default from_option id].
  destruct a as [|c a]; [done|]. cbn [String.eqb negb andb].
  by rewrite Hobs.
Qed.

(** When every text of the model is parsed and gives dict inputs only,
    the loop returns a string: the sentinel, or the non-empty final answer
    parsed from one of the model's texts. *)
Lemma turn_loop_returns registry remaining turn conversation history :
  dict_inputs json_loads generate ->
  exists s,
    outcome (turn_loop' registry remaining turn conversation history) = Ok s /\
    (s = sentinel \/
     exists t c parsed,
       parse_react_response json_loads
         (drop_str (String.length c) (generate t c)) = Ok parsed /\
       final_answer parsed = Some s /\
       s <> "").
Proof.
  intros Hdict. revert turn conversation history.
  induction remaining as [|remaining IH]; intros turn conversation history;
    cbn [turn_loop].
  - exists sentinel. split; [reflexivity|by left].
  - destruct (Hdict turn conversation) as (parsed & Hparsed & Hkwargs).
    rewrite Hparsed.
    destruct (truthy_str (final_answer parsed)) eqn:Hfinal.
    + destruct (final_answer parsed) as [s|] eqn:Hs; [|discriminate].
      exists s. split; [reflexivity|]. right. exists turn, conversation, parsed.
      split; [exact Hparsed|]. split; [exact Hs|]. intros ->. discriminate.
    + destruct (truthy_str (action parsed) && truthy (action_input parsed))
        eqn:Hact.
      * apply andb_true_iff in Hact as [_ Hinput].
        destruct (Hkwargs Hinput) as [kwargs Hkw]. rewrite Hkw.
        destruct (execute_action_dict registry (show (action parsed)) kwargs)
          as [obs ->].
        apply IH.
      * exists sentinel. split; [reflexivity|by left].
Qed.

(** What holds of C7: when the prompt can be built, every text of the
    model is parsed and the action inputs are dicts, [execute] returns a
    string, after at most [max_turns] requests to the model. *)
Lemma execute_returns_string registry history user_query max_turns prompt :
  dict_inputs json_loads generate ->
  create_react_prompt py_str registry history user_query = Ok prompt ->
  exists s,
    outcome (execute' registry history user_query max_turns) = Ok s /\
    (turns (execute' registry history user_query max_turns) <= max_turns)%nat.
Proof.
  intros Hdict Hprompt.
  destruct (turn_loop_returns registry max_turns 0 prompt history Hdict)
    as (s & Hs & _).
  exists s. split; [|apply execute_turns_bounded].
  unfold execute. by rewrite Hprompt.
Qed.

End Loop.

(** The dispatcher raises on an argument value that is not a dict. *)
Lemma execute_function_not_a_dict registry n (v : pyval) :
  match v with
  | PyDict _ => True
  | _ =>
      Sdk.execute_function registry [("name", PyStr n); ("parameters", v)]
      = Raise ValidationError
  end.
Proof.
  destruct v; try exact I; unfold Sdk.execute_function; simpl;
    destruct (Sdk.get n registry) as [fd|]; reflexivity.
Qed.

(** The examples of the specification. *)

Example dispatch_on_empty_registry :
  Sdk.execute_function ∅ (Sdk.call_request "foo" []) =
  Ok {| Sdk.function_name := "foo"; Sdk.call_parameters := [];
        Sdk.result := PyNone;
        Sdk.error := Some "Function 'foo' not found" |}.
Proof. reflexivity. Qed.

Example flat_endpoint_schema :
  let schemas := Converter.convert (Converter.RestDocument Examples.weather_docs) in
  Converter.name <$> schemas = ["getWeather"] /\
  (fun f => map_to_list (Converter.pd_type <$>
                           Converter.properties (Converter.parameters f)))
    <$> schemas = [[("location", "string")]] /\
  (fun f => Converter.required (Converter.parameters f)) <$> schemas
    = [["location"]].
Proof. vm_compute. repeat split. Qed.

Example parse_structured_input :
  ReAct.parse_react_response Json.loads Examples.thought_and_action =
  Ok {| ReAct.thought := Some "X"; ReAct.action := Some "bar";
        ReAct.action_input := PyDict [("a", PyInt 1)];
        ReAct.final_answer := None |}.
Proof. vm_compute. reflexivity. Qed.

Example budget_of_one
    (json_dumps : option nat -> pyval -> string) (py_str : pyval -> string) :
  ReAct.execute Json.loads json_dumps py_str
    (Examples.says " I do not know what to do.") ∅ [] "Is it up?" 1
  = {| ReAct.outcome := Ok ReAct.sentinel;
       ReAct.conversation_history := ["Thought: None"];
       ReAct.turns := 1 |}.
Proof. vm_compute. reflexivity. Qed.

(** C7 at a failing input.  The model answers with an action whose input
    is the JSON number 5: the dispatcher cannot build its result around
    an argument value that is not a dict, and [execute] lets the
    validation error through instead of returning a string. *)
Theorem execute_raises_on_number_input
    (json_dumps : option nat -> pyval -> string) (py_str : pyval -> string) :
  ReAct.outcome
    (ReAct.execute Json.loads json_dumps py_str
       (Examples.says Examples.number_input)
       (Sdk.register Examples.ping ∅) [] "Is it up?" 5)
  = Raise ValidationError.
Proof. vm_compute. reflexivity. Qed.

(** C8 at a failing input.  The model calls the registered tool [ping],
    which takes no parameters, with the empty argument dict: nothing is
    dispatched, no observation is recorded, and the loop ends after this
    one turn with the sentinel. *)
Theorem empty_input_not_dispatched
    (json_dumps : option nat -> pyval -> string) (py_str : pyval -> string) :
  ReAct.execute Json.loads json_dumps py_str
    (Examples.says Examples.empty_input)
    (Sdk.register Examples.ping ∅) [] "Is it up?" 5
  = {| ReAct.outcome := Ok ReAct.sentinel;
       ReAct.conversation_history := ["Thought: None"];
       ReAct.turns := 1 |}.
Proof. vm_compute. reflexivity. Qed.

(* ===================================================================== *)
(** ** Registration from dicts                                            *)
(* ===================================================================== *)

Section Registration.

Import Sdk.

Implicit Types (registry : FunctionRegistry) (function_def : FunctionDefinition).

(** X1.  Registering a definition under a name that is free and removing
    that name gives the registry back; removing a name that is not
    registered changes nothing. *)
Theorem register_then_remove registry function_def :
  get (name function_def) registry = None ->
  remove (name function_def) (register function_def registry) = registry /\
  remove (name function_def) registry = registry.
Proof.
  unfold get, remove, register. intros H. split.
  - by rewrite delete_insert_eq, delete_id.
  - by apply delete_id.
Qed.

Lemma register_then_remove_witness :
  remove "ping" (register Examples.ping (register Examples.noop ∅))
  = register Examples.noop ∅.
Proof.
  apply (register_then_remove (register Examples.noop ∅) Examples.ping).
  reflexivity.
Defined.

Lemma register_from_dict_of_definition registry function_def implementation :
  GemmaSDK.register_from_dict (to_dict function_def) implementation registry
  = Ok (register (GemmaSDK.bind_implementation function_def implementation)
                 registry).
Proof.
  destruct function_def as [n d p [] impl]; reflexivity.
Qed.

(** X2.  [register_from_dict] on the dict that [to_dict] gives returns
    and registers the same definition under its name, with the
    implementation handed in (the dict carries none). *)
Theorem register_from_dict_to_dict registry function_def implementation :
  exists registry',
    GemmaSDK.register_from_dict (to_dict function_def) implementation registry
    = Ok registry' /\
    get (name function_def) registry'
    = Some (GemmaSDK.bind_implementation function_def implementation) /\
    forall n, n <> name function_def -> get n registry' = get n registry.
Proof.
  rewrite register_from_dict_of_definition. eexists. split; [reflexivity|].
  unfold get, register. cbn [GemmaSDK.bind_implementation name]. split.
  - apply lookup_insert_eq.
  - intros n Hn. by apply lookup_insert_ne.
Qed.

(** X3.  A dict without one of the keys name, description and parameters
    makes [register_from_dict] raise [KeyError] for the first of them that
    is missing; the registry is not changed by a call that raises. *)
Theorem register_from_dict_missing_key registry function_dict implementation key :
  head (filter (fun k => dict_get k function_dict = None)
               GemmaSDK.mandatory_keys) = Some key ->
  GemmaSDK.register_from_dict function_dict implementation registry
  = Raise (KeyError key).
Proof.
  unfold GemmaSDK.register_from_dict, GemmaSDK.mandatory_keys, dict_item.
  rewrite !filter_cons, filter_nil.
  destruct (dict_get "name" function_dict) as [n|] eqn:Hn;
    [|rewrite decide_True by done; by intros [= <-]].
  rewrite decide_False by done.
  destruct (dict_get "description" function_dict) as [d|] eqn:Hd;
    [|rewrite decide_True by done; by intros [= <-]].
  rewrite decide_False by done.
  destruct (dict_get "parameters" function_dict) as [pa|] eqn:Hp;
    [|rewrite decide_True by done; by intros [= <-]].
  rewrite decide_False by done. discriminate.
Qed.

Lemma register_from_dict_missing_key_witness :
  GemmaSDK.register_from_dict
    [("name", PyStr "ping"); ("parameters", PyDict [])] None ∅
  = Raise (KeyError "description").
Proof.
  apply (register_from_dict_missing_key ∅
           [("name", PyStr "ping"); ("parameters", PyDict [])] None "description").
  reflexivity.
Defined.

(** X4.  [register_multiple] works through its list in order and stops
    at the first dict that raises, keeping what the dicts before it
    registered: on a list [a ++ b] it is [register_multiple] on [a] and,
    when that did not raise, on [b] from the registry reached. *)
Theorem register_multiple_app registry (a b : list (dict pyval)) implementations :
  GemmaSDK.register_multiple (a ++ b) implementations registry =
  match GemmaSDK.register_multiple a implementations registry with
  | (registry', None) => GemmaSDK.register_multiple b implementations registry'
  | (registry', Some e) => (registry', Some e)
  end.
Proof.
  revert registry. induction a as [|function_dict a IH]; intros registry.
  - reflexivity.
  - cbn [app GemmaSDK.register_multiple].
    destruct (Py.bind _ _) as [registry'|e]; [apply IH|reflexivity].
Qed.

Lemma pick_implementation_to_dict function_def implementations :
  GemmaSDK.pick_implementation (to_dict function_def) implementations
  = Ok (implementations !! name function_def).
Proof.
  unfold GemmaSDK.pick_implementation.
  destruct (decide (implementations = ∅)) as [->|_].
  - by rewrite lookup_empty.
  - destruct function_def as [n d p [] impl]; reflexivity.
Qed.

(** X5.  [register_multiple] on the dicts of a list of definitions never
    raises and registers each of them in turn, with the implementation
    that [implementations] lists under its name, or none. *)
Theorem register_multiple_to_dict registry (function_defs : list FunctionDefinition)
    implementations :
  GemmaSDK.register_multiple (to_dict <$> function_defs) implementations registry
  = (foldl (fun registry function_def =>
              register (GemmaSDK.bind_implementation function_def
                          (implementations !! name function_def)) registry)
           registry function_defs,
     None).
Proof.
  revert registry.
  induction function_defs as [|function_def function_defs IH]; intros registry.
  - reflexivity.
  - rewrite fmap_cons. cbn [GemmaSDK.register_multiple foldl].
    rewrite pick_implementation_to_dict. cbn [Py.bind].
    rewrite register_from_dict_of_definition. apply IH.
Qed.

End Registration.

(* ===================================================================== *)
(** ** Function calls in the text of the model                            *)
(* ===================================================================== *)

Section FunctionCalls.

Import GemmaSDK.

Variable json_loads : string -> option pyval.
Variable json_dumps : option nat -> pyval -> string.
Variable generate : string -> string.

Lemma find_sub_char c a s :
  find_sub (String c EmptyString) (String a s) =
  if Ascii.eqb a c then Some (EmptyString, s)
  else match find_sub (String c EmptyString) s with
       | Some (before, rest) => Some (String a before, rest)
       | None => None
       end.
Proof.
  cbn [find_sub strip_prefix]. rewrite (Ascii.eqb_sym c a).
  destruct (Ascii.eqb a c); reflexivity.
Qed.

(** [split] gives one part exactly when the separator does not occur. *)
Lemma split_contains c s :
  if contains (String c EmptyString) s
  then exists first second parts, split c s = first :: second :: parts
  else split c s = [s].
Proof.
  unfold contains. induction s as [|a s IH].
  - reflexivity.
  - rewrite find_sub_char. cbn [split].
    destruct (Ascii.eqb a c).
    + destruct (split c s) as [|x l] eqn:Hs; [|by eexists _, _, _].
      by destruct s; cbn [split] in Hs; repeat case_match.
    + destruct (find_sub (String c EmptyString) s) as [[before rest]|].
      * destruct IH as (first & second & parts & ->). by eexists _, _, _.
      * by rewrite IH.
Qed.

(** An invariant of a dict that the steps of a loop keep holds after the
    loop. *)
Lemma foldl_invariant {S X} (I : S -> Prop) (step : S -> X -> S) (l : list X) d :
  (forall d x, I d -> I (step d x)) -> I d -> I (foldl step d l).
Proof.
  intros Hstep. revert d. induction l as [|x l IH]; intros d Hd; [exact Hd|].
  cbn [foldl]. by apply IH, Hstep.
Qed.

Lemma parse_parameters_invariant (I : dict pyval -> Prop) params_text :
  (forall k s d, I d -> I (dict_set k (PyStr s) d)) ->
  I [] -> I (parse_parameters params_text).
Proof.
  intros Hset Hnil. unfold parse_parameters.
  apply foldl_invariant; [|exact Hnil].
  intros d pair Hd. destruct (contains "=" pair); [|exact Hd].
  destruct (split1 "=" pair) as [|key [|value [|]]]; auto.
Qed.

(** X6.  In the Python format, [parse_function_call] returns [None]
    exactly when the response has no bracketed text on one line or that
    text has no opening parenthesis; otherwise it returns a call with a
    name and a flat dict of parameters: string values, no key twice. *)
Theorem parse_python_call_shape (response : string) :
  (parse_python_call response = PyNone <->
   match search_bracket response with
   | Some function_text => contains "(" function_text = false
   | None => True
   end) /\
  (parse_python_call response = PyNone \/
   exists n parameters,
     parse_python_call response
     = PyDict [("name", PyStr n); ("parameters", PyDict parameters)] /\
     Forall (fun item => exists s, item.2 = PyStr s) parameters /\
     NoDup parameters.*1).
Proof.
  unfold parse_python_call.
  destruct (search_bracket response) as [function_text|]; [|by split; [|left]].
  pose proof (split_contains "(" function_text) as Hsplit.
  destruct (contains "(" function_text).
  - destruct Hsplit as (first & second & parts & ->). split; [done|].
    right. eexists _, _. split; [reflexivity|]. split.
    + apply (parse_parameters_invariant
               (Forall (fun item : string * pyval => exists s, item.2 = PyStr s)));
        [|constructor].
      intros k s d Hd.
      apply (dict_set_values (fun v => exists s, v = PyStr s));
        [by eexists|exact Hd].
    + apply (parse_parameters_invariant (fun d => NoDup d.*1)); [|constructor].
      intros k s d. apply dict_set_NoDup.
  - rewrite Hsplit. split; [done|by left].
Qed.




(** X8.  In the JSON format a decoded call that names a function and has
    no parameters key makes [GemmaSDK.execute] raise [KeyError]. *)
Theorem execute_json_missing_parameters registry (user_query : string) d v :
  json_loads
    (generate (create_function_calling_prompt json_dumps registry user_query
                                              "json"))
  = Some (PyDict d) ->
  dict_get "name" d = Some v ->
  dict_get "parameters" d = None ->
  execute json_loads json_dumps generate registry user_query "json"
  = Raise (KeyError "parameters").
Proof.
  intros Hloads Hname Hparams. unfold execute, parse_function_call.
  cbn [String.eqb Ascii.eqb Bool.eqb]. rewrite Hloads.
  cbn [default from_option id truthy].
  destruct d as [|item d]; [discriminate|].
  cbn [execute_function_call]. unfold Sdk.execute_function, dict_item.
  by rewrite Hname, Hparams.
Qed.

(** X9.  In the JSON format a response that does not decode, or decodes
    to a falsy value, leads to no dispatch: [GemmaSDK.execute] returns no
    result and the response. *)
Theorem execute_json_no_call registry (user_query : string) :
  let response :=
    generate (create_function_calling_prompt json_dumps registry user_query
                                             "json") in
  match json_loads response with
  | Some v => truthy v = false
  | None => True
  end ->
  execute json_loads json_dumps generate registry user_query "json"
  = Ok (None, response).
Proof.
  intros response H. unfold execute, parse_function_call. fold response.
  cbn [String.eqb Ascii.eqb Bool.eqb].
  destruct (json_loads response) as [v|]; cbn [default from_option id];
    [by rewrite H|reflexivity].
Qed.

End FunctionCalls.

Lemma execute_json_missing_parameters_witness :
  GemmaSDK.execute Json.loads_caught Examples.dumps_nothing
    (Examples.answers Examples.call_without_parameters) ∅ "Is it up?" "json"
  = Raise (KeyError "parameters").
Proof.
  apply (execute_json_missing_parameters Json.loads_caught Examples.dumps_nothing
           (Examples.answers Examples.call_without_parameters) ∅ "Is it up?"
           [("name", PyStr "ping")] (PyStr "ping")); reflexivity.
Defined.

Lemma execute_json_no_call_witness :
  GemmaSDK.execute Json.loads_caught Examples.dumps_nothing
    (Examples.answers "I cannot help with that.") ∅ "Is it up?" "json"
  = Ok (None, "I cannot help with that.").
Proof.
  apply (execute_json_no_call Json.loads_caught Examples.dumps_nothing
           (Examples.answers "I cannot help with that.") ∅ "Is it up?").
  vm_compute. exact I.
Defined.

(* ===================================================================== *)
(** ** More on the ReAct loop                                             *)
(* ===================================================================== *)

Section LoopHistory.

Import ReAct.

Variable json_loads : string -> res pyval.
Variable json_dumps : option nat -> pyval -> string.
Variable py_str : pyval -> string.
Variable generate : nat -> string -> string.

Abbreviation loop := (turn_loop json_loads json_dumps py_str generate).
Abbreviation run_execute := (execute json_loads json_dumps py_str generate).
Abbreviation parse_new conversation turn :=
  (parse_react_response json_loads
     (drop_str (String.length conversation) (generate turn conversation))).

Lemma turn_loop_history registry remaining turn conversation history :
  exists added k,
    conversation_history (loop registry remaining turn conversation history)
    = history ++ added /\
    turns (loop registry remaining turn conversation history) = (turn + k)%nat /\
    (length added <= 3 * k)%nat /\
    (k <= S (length added))%nat /\
    ((k <= length added)%nat \/
     exists t c e,
       parse_new c t = Raise e /\
       outcome (loop registry remaining turn conversation history) = Raise e).
Proof.
  revert turn conversation history.
  induction remaining as [|remaining IH]; intros turn conversation history;
    cbn [turn_loop].
  - exists [], 0%nat. cbn. rewrite app_nil_r.
    repeat split; try lia; left; lia.
  - destruct (parse_new conversation turn) as [parsed|e] eqn:Hparse.
    2:{ exists [], 1%nat. cbn. rewrite app_nil_r. repeat split; try lia.
        right. by exists turn, conversation, e. }
    destruct (truthy_str _).
    { eexists [_; _], 1%nat. cbn. rewrite <- app_assoc.
      repeat split; try lia; left; lia. }
    destruct (_ && _).
    2:{ eexists [_], 1%nat. cbn. repeat split; try lia; left; lia. }
    destruct (execute_action _ _ _ _ _).
    2:{ eexists [_; _], 1%nat. cbn. rewrite <- app_assoc.
        repeat split; try lia; left; lia. }
    match goal with |- context [turn_loop _ _ _ _ _ remaining (S turn) ?c ?h] =>
      destruct (IH (S turn) c h) as (added & k & Hh & Ht & Hk & Hk' & Hor);
      set (r := turn_loop json_loads json_dumps py_str generate registry
                  remaining (S turn) c h) in *
    end.
    eexists (_ :: _ :: _ :: added), (S k). rewrite Hh, Ht, <- !app_assoc. cbn.
    split; [reflexivity|]. split; [lia|]. split; [lia|]. split; [lia|].
    destruct Hor as [?|Hraise]; [left; lia|right; exact Hraise].
Qed.

(** X10.  [execute] only appends to the history of the executor: what
    was there stays in front, and a run adds at most three entries per
    request to the model.  It adds at least one entry per request, except
    that the last request adds none when the parse of its text raises. *)
Theorem execute_appends_history registry history user_query max_turns :
  let run := execute json_loads json_dumps py_str generate
                     registry history user_query max_turns in
  exists added,
    conversation_history run = history ++ added /\
    (length added <= 3 * turns run)%nat /\
    (turns run <= S (length added))%nat /\
    ((turns run <= length added)%nat \/
     exists t c e,
       parse_react_response json_loads
         (drop_str (String.length c) (generate t c)) = Raise e /\
       outcome run = Raise e).
Proof.
  cbv zeta. unfold execute. destruct (create_react_prompt _ _ _ _) as [prompt|e].
  - destruct (turn_loop_history registry max_turns 0 prompt history)
      as (added & k & -> & -> & Hk & Hk' & Hor).
    exists added. split; [reflexivity|]. simpl.
    split; [lia|]. split; [lia|].
    destruct Hor as [?|?]; [by left|by right].
  - exists []. cbn. rewrite app_nil_r. repeat split; try lia; left; lia.
Qed.

Lemma turn_loop_result registry remaining turn conversation history s :
  outcome (loop registry remaining turn conversation history) = Ok s ->
  s = sentinel \/
  (s <> "" /\
   (exists t c parsed, parse_new c t = Ok parsed /\ final_answer parsed = Some s) /\
   last (conversation_history (loop registry remaining turn conversation history))
   = Some ("Final Answer: " +:+ s)).
Proof.
  revert turn conversation history.
  induction remaining as [|remaining IH]; intros turn conversation history;
    cbn [turn_loop].
  - intros [= <-]. by left.
  - destruct (parse_new conversation turn) as [parsed|e] eqn:Hparse;
      [|discriminate].
    destruct (truthy_str (final_answer parsed)) eqn:Hf.
    { destruct (final_answer parsed) as [a|] eqn:Ha; [|discriminate].
      cbn. intros [= <-]. right. split; [by intros ->|]. split.
      - by exists turn, conversation, parsed.
      - by rewrite last_snoc. }
    destruct (_ && _); [|intros [= <-]; by left].
    destruct (execute_action _ _ _ _ _); [|discriminate].
    apply IH.
Qed.

(** X11.  A string that [execute] returns is the sentinel or a non-empty
    final answer parsed from one response of the model, and in that case
    the history ends with the entry [Final Answer: <it>]. *)
Theorem execute_result_origin registry history user_query max_turns s :
  outcome (run_execute registry history user_query max_turns) = Ok s ->
  s = sentinel \/
  (s <> "" /\
   (exists t c parsed, parse_new c t = Ok parsed /\ final_answer parsed = Some s) /\
   last (conversation_history
           (run_execute registry history user_query max_turns))
   = Some ("Final Answer: " +:+ s)).
Proof.
  unfold execute. destruct (create_react_prompt _ _ _ _) as [prompt|e];
    [apply turn_loop_result|discriminate].
Qed.

Lemma contains_false_search_action s :
  contains action_prefix s = false -> search_action s = None.
Proof.
  destruct (search_action s) as [groups|] eqn:H; [|done].
  apply search_action_contains in H. congruence.
Qed.

(** X12.  A response without the two markers (no action line, no final
    answer) ends [execute] in the first turn: the parse returns, the
    sentinel comes back and only the thought is recorded. *)
Theorem execute_without_markers registry history user_query max_turns prompt :
  create_react_prompt py_str registry history user_query = Ok prompt ->
  contains action_prefix
    (drop_str (String.length prompt) (generate 0 prompt)) = false ->
  contains "Final Answer:"
    (drop_str (String.length prompt) (generate 0 prompt)) = false ->
  exists parsed,
    parse_new prompt 0 = Ok parsed /\
    run_execute registry history user_query (S max_turns) =
    {| outcome := Ok sentinel;
       conversation_history :=
         history ++ ["Thought: " +:+ show (thought parsed)];
       turns := 1 |}.
Proof.
  intros Hprompt Haction Hfinal. unfold execute. rewrite Hprompt.
  cbn [turn_loop]. unfold parse_react_response, search_final_answer.
  rewrite (contains_false_search_action _ Haction).
  unfold contains in Hfinal.
  destruct (find_sub "Final Answer:" _) as [[? ?]|]; [discriminate|].
  cbn [Py.bind]. eexists. split; reflexivity.
Qed.


Lemma mapM_raises {A B} (f : A -> res B) (l : list A) x e :
  x ∈ l -> f x = Raise e -> exists e', mapM f l = Raise e'.
Proof.
  intros Hin Hx. induction l as [|a l IH]; [by apply elem_of_nil in Hin|].
  cbn [mapM]. apply elem_of_cons in Hin as [<-|Hin].
  - rewrite Hx. by eexists.
  - destruct (f a); [|by eexists]. cbn [Py.bind].
    destruct (IH Hin) as [e' ->]. by eexists.
Qed.

(** X14.  A registered definition whose parameters have no properties
    key makes [execute] raise while it builds the prompt: the model is not
    asked and the history is not touched. *)
Theorem execute_schema_without_properties registry history user_query max_turns
    n function_def :
  Sdk.get n registry = Some function_def ->
  dict_get "properties" (Sdk.parameters function_def) = None ->
  exists e,
    run_execute registry history user_query max_turns =
    {| outcome := Raise e; conversation_history := history; turns := 0 |}.
Proof.
  intros Hget Hprops. unfold execute, create_react_prompt.
  destruct (mapM_raises (tool_description py_str) (Sdk.get_all registry)
              function_def (KeyError "properties")) as [e ->].
  - unfold Sdk.get_all. apply list_elem_of_fmap. exists (n, function_def).
    split; [reflexivity|]. by apply elem_of_map_to_list.
  - unfold tool_description, dict_item. by rewrite Hprops.
  - by exists e.
Qed.

End LoopHistory.

Lemma execute_without_markers_witness :
  ReAct.execute Json.loads Examples.dumps_nothing (fun _ => "None")
    (Examples.says " I do not know what to do.") ∅ [] "Is it up?" 1
  = {| ReAct.outcome := Ok ReAct.sentinel;
       ReAct.conversation_history := ["Thought: None"];
       ReAct.turns := 1 |}.
Proof.
  destruct (ReAct.create_react_prompt (fun _ => "None") ∅ [] "Is it up?")
    as [prompt|e] eqn:Hprompt; [|discriminate Hprompt].
  destruct (execute_without_markers Json.loads Examples.dumps_nothing
              (fun _ => "None") (Examples.says " I do not know what to do.")
              ∅ [] "Is it up?" 0 prompt Hprompt) as (parsed & Hparsed & ->).
  - injection Hprompt as <-. vm_compute. reflexivity.
  - injection Hprompt as <-. vm_compute. reflexivity.
  - injection Hprompt as <-. vm_compute in Hparsed. injection Hparsed as <-.
    reflexivity.
Defined.

Lemma execute_schema_without_properties_witness :
  exists e,
    ReAct.execute Json.loads Examples.dumps_nothing (fun _ => "None")
      (Examples.says "") (Sdk.register Examples.bare ∅) [] "Is it up?" 5
    = {| ReAct.outcome := Raise e; ReAct.conversation_history := [];
         ReAct.turns := 0 |}.
Proof.
  apply (execute_schema_without_properties Json.loads Examples.dumps_nothing
           (fun _ => "None") (Examples.says "") (Sdk.register Examples.bare ∅)
           [] "Is it up?" 5 "bare" Examples.bare); reflexivity.
Defined.

Lemma execute_result_origin_witness :
  "It is up." = ReAct.sentinel \/
  ("It is up." <> "" /\
   (exists t c parsed,
      ReAct.parse_react_response Json.loads
        (drop_str (String.length c) (Examples.says Examples.answer_now t c))
      = Ok parsed /\
      ReAct.final_answer parsed = Some "It is up.") /\
   last (ReAct.conversation_history
           (ReAct.execute Json.loads Examples.dumps_nothing (fun _ => "None")
              (Examples.says Examples.answer_now) ∅ [] "Is it up?" 5))
   = Some ("Final Answer: " +:+ "It is up.")).
Proof.
  apply (execute_result_origin Json.loads Examples.dumps_nothing
           (fun _ => "None") (Examples.says Examples.answer_now) ∅ []
           "Is it up?" 5 "It is up.").
  vm_compute. reflexivity.
Defined.

(** A run that ends in the parse: the action input is an integer of 4301
    digits, the conversion raises, and nothing is recorded for the turn. *)
Example execute_raises_in_parse
    (json_dumps : option nat -> pyval -> string) (py_str : pyval -> string) :
  ReAct.execute Json.loads json_dumps py_str
    (Examples.says Examples.long_number_action)
    (Sdk.register Examples.ping ∅) [] "Is it up?" 5
  = {| ReAct.outcome := Raise ValueError;
       ReAct.conversation_history := [];
       ReAct.turns := 1 |}.
Proof. vm_compute. reflexivity. Qed.

(* ===================================================================== *)
(** ** More on conversations                                              *)
(* ===================================================================== *)

Section ConversationLog.

Import Conversations.

Variable py_str : pyval -> string.

(** X15.  [from_dict] of [to_dict] returns for every conversation, with
    every message as it was and in the same order; the system prompt comes
    back as it was when it is truthy and as the default otherwise. *)
Theorem from_dict_to_dict (now : nat -> string) (conversation : Conversation) :
  from_dict now (to_dict conversation) =
  Ok {| system_prompt :=
          py_or (system_prompt conversation) (PyStr default_system_prompt);
        messages := messages conversation |}.
Proof.
  unfold from_dict, to_dict. simpl. by rewrite append_messages_vars.
Qed.

Lemma apply_messages_grow (self : Conversation) (o : operation) :
  o <> Clear ->
  exists added,
    messages (apply py_str self o) = messages self ++ added /\
    (length added <= 1)%nat.
Proof.
  destruct o as [c now|c fc now|fr now|]; intros Ho; [| | |done].
  - by eexists [_].
  - by eexists [_].
  - simpl. destruct (add_function_result py_str fr now self) as [self'|e] eqn:H.
    + unfold add_function_result in H.
      destruct (match fr with
                | inl r => Ok (Sdk.result_dict r)
                | inr (PyDict d) => Ok d
                | inr _ => Raise TypeError
                end) as [d|]; simpl in H; [|discriminate].
      destruct (dict_item "function_name" d); simpl in H; [|discriminate].
      destruct (dict_item "result" d); simpl in H; [|discriminate].
      injection H as <-. eexists [_]. split; [reflexivity|simpl; lia].
    + exists []. rewrite app_nil_r. split; [reflexivity|simpl; lia].
Qed.

(** X16.  The operations other than [clear] only append: after any
    sequence of them the messages that were there are still in front, in
    their order, at most one message was added per call, and the system
    prompt is the same (also after [clear]). *)
Theorem conversation_append_only (self : Conversation) (calls : list operation) :
  Clear ∉ calls ->
  exists added,
    messages (foldl (apply py_str) self calls) = messages self ++ added /\
    (length added <= length calls)%nat /\
    system_prompt (foldl (apply py_str) self calls) = system_prompt self.
Proof.
  revert self. induction calls as [|o calls IH]; intros self Hclear.
  - exists []. by rewrite app_nil_r.
  - apply not_elem_of_cons in Hclear as [Ho Hclear]. cbn [foldl].
    destruct (IH (apply py_str self o) Hclear) as (added & -> & Hlen & ->).
    destruct (apply_messages_grow self o) as (first & -> & Hfirst); [done|].
    exists (first ++ added). rewrite <- app_assoc, length_app. cbn [length].
    split; [reflexivity|]. split; [lia|]. apply apply_system_prompt.
Qed.



End ConversationLog.

Lemma conversation_append_only_witness :
  exists added,
    Conversations.messages (foldl (Conversations.apply (fun _ => "None")) (Conversations.init PyNone)
                [Conversations.AddUserMessage (PyStr "Hello!") "2024-01-01T10:00:00";
                 Conversations.AddAssistantMessage (PyStr "Hi there!") PyNone
                                     "2024-01-01T10:00:01"])
    = Conversations.messages (Conversations.init PyNone) ++ added /\
    (length added <= 2)%nat /\
    Conversations.system_prompt (foldl (Conversations.apply (fun _ => "None")) (Conversations.init PyNone)
                     [Conversations.AddUserMessage (PyStr "Hello!") "2024-01-01T10:00:00";
                      Conversations.AddAssistantMessage (PyStr "Hi there!") PyNone
                                          "2024-01-01T10:00:01"])
    = Conversations.system_prompt (Conversations.init PyNone).
Proof.
  apply (conversation_append_only (fun _ => "None") (Conversations.init PyNone)
           [Conversations.AddUserMessage (PyStr "Hello!") "2024-01-01T10:00:00";
            Conversations.AddAssistantMessage (PyStr "Hi there!") PyNone "2024-01-01T10:00:01"]).
  intros H. repeat (apply elem_of_cons in H as [H|H]; [discriminate H|]).
  by apply elem_of_nil in H.
Defined.


Section ConversationViews.

Import Conversations.

(** X19.  [get_formatted_messages] gives the system prompt first and
    then one entry per message, in order, with the role and the content of
    the message; an entry has a function_call or function_result key
    exactly when that field of the message is truthy. *)
Theorem formatted_messages (self : Conversation) :
  length (get_formatted_messages self) = S (length (messages self)) /\
  head (get_formatted_messages self)
  = Some [("role", PyStr "system"); ("content", system_prompt self)] /\
  forall i message,
    messages self !! i = Some message ->
    exists formatted,
      get_formatted_messages self !! S i = Some formatted /\
      dict_get "role" formatted = Some (role message) /\
      dict_get "content" formatted = Some (content message) /\
      dict_get "function_call" formatted
      = (if truthy (function_call message) then Some (function_call message)
         else None) /\
      dict_get "function_result" formatted
      = (if truthy (function_result message)
         then Some (function_result message) else None).
Proof.
  unfold get_formatted_messages. split; [by rewrite length_cons, length_fmap|].
  split; [reflexivity|]. intros i message Hi.
  exists (format_message message). split.
  - change ((format_message <$> messages self) !! i
            = Some (format_message message)).
    by rewrite list_lookup_fmap, Hi.
  - unfold format_message.
    destruct (truthy (function_call message)),
             (truthy (function_result message)); repeat split; reflexivity.
Qed.

Lemma append_minimal_messages now i (items : list (pyval * pyval)) conversation :
  append_messages now i
    ((fun '(r, c) => PyDict [("role", r); ("content", c)]) <$> items)
    conversation =
  Ok {| system_prompt := system_prompt conversation;
        messages := messages conversation ++
          imap (fun j '(r, c) =>
                  {| role := r; content := c; function_call := PyNone;
                     function_result := PyNone;
                     timestamp := PyStr (now (i + j)%nat) |})
               items |}.
Proof.
  revert i conversation.
  induction items as [|[r c] items IH]; intros i conversation.
  - simpl. rewrite app_nil_r. by destruct conversation.
  - rewrite fmap_cons, imap_cons. cbn [append_messages].
    change (message_of (now i) (PyDict [("role", r); ("content", c)]))
      with (Ok {| role := r; content := c; function_call := PyNone;
                  function_result := PyNone; timestamp := PyStr (now i) |}).
    cbn [Py.bind]. rewrite IH. cbn [system_prompt messages].
    rewrite <- app_assoc, Nat.add_0_r. cbn [app]. do 4 f_equal.
    apply imap_ext. intros j [r' c'] _. cbn. by rewrite Nat.add_succ_r.
Qed.

(** X20.  [from_dict] fills in what a record leaves out: without a
    system prompt the conversation gets the default one, and a message
    record with only role and content gets no function call, no function
    result and, as its timestamp, the reading of the clock taken for this
    record. *)
Theorem from_dict_defaults (now : nat -> string) (items : list (pyval * pyval)) :
  from_dict now
    [("messages",
      PyList ((fun '(r, c) => PyDict [("role", r); ("content", c)]) <$> items))]
  = Ok {| system_prompt := PyStr default_system_prompt;
          messages :=
            imap (fun i '(r, c) =>
                    {| role := r; content := c; function_call := PyNone;
                       function_result := PyNone;
                       timestamp := PyStr (now i) |})
                 items |}.
Proof.
  unfold from_dict. cbn [dict_get].
  destruct (decide ("messages" = "messages")); [|done].
  destruct (decide ("system_prompt" = "messages")); [done|].
  cbn [default from_option id iterate Py.bind].
  by rewrite append_minimal_messages.
Qed.

Lemma append_messages_raises now i items conversation item :
  item ∈ items -> (forall reading, exists e, message_of reading item = Raise e) ->
  exists e', append_messages now i items conversation = Raise e'.
Proof.
  intros Hin Hitem. revert i conversation.
  induction items as [|a items IH]; intros i conversation;
    [by apply elem_of_nil in Hin|].
  cbn [append_messages]. apply elem_of_cons in Hin as [<-|Hin].
  - destruct (Hitem (now i)) as [e ->]. by eexists.
  - destruct (message_of (now i) a); [|by eexists]. cbn [Py.bind]. by apply IH.
Qed.

(** X21.  One message record without role or without content makes
    [from_dict] raise: no conversation is returned for the record. *)
Theorem from_dict_incomplete_message (now : nat -> string) (data : dict pyval)
    (items : list pyval) (d : dict pyval) :
  dict_get "messages" data = Some (PyList items) ->
  PyDict d ∈ items ->
  dict_get "role" d = None \/ dict_get "content" d = None ->
  exists e, from_dict now data = Raise e.
Proof.
  intros Hdata Hin Hmissing. unfold from_dict. rewrite Hdata.
  cbn [default from_option id iterate Py.bind].
  eapply append_messages_raises; [exact Hin|].
  intros reading. unfold message_of, dict_item.
  destruct (dict_get "role" d); [|by eexists]. cbn [Py.bind].
  destruct Hmissing as [?| ->]; [done|by eexists].
Qed.

Lemma from_dict_incomplete_message_witness :
  exists e,
    from_dict (fun _ => "2024-01-01T10:00:00")
      [("system_prompt", PyStr "You are a weather assistant.");
       ("messages", PyList [PyDict [("role", PyStr "user")]])]
    = Raise e.
Proof.
  apply (from_dict_incomplete_message (fun _ => "2024-01-01T10:00:00")
           [("system_prompt", PyStr "You are a weather assistant.");
            ("messages", PyList [PyDict [("role", PyStr "user")]])]
           [PyDict [("role", PyStr "user")]] [("role", PyStr "user")]).
  - reflexivity.
  - left.
  - right. reflexivity.
Defined.

(** X22.  [create_conversation] under an id that is taken replaces the
    conversation stored there by a new one without messages; the other
    ids keep their conversations; after [delete_conversation] the id is
    free, whether it was taken or not. *)
Theorem create_conversation_replaces (conversation_id : string)
    (system_prompt : pyval) (conversations : ConversationManager) :
  let conversation :=
    (create_conversation conversation_id system_prompt conversations).1 in
  let conversations' :=
    (create_conversation conversation_id system_prompt conversations).2 in
  messages conversation = [] /\
  get_conversation conversation_id conversations' = Some conversation /\
  (forall other, other <> conversation_id ->
     get_conversation other conversations' = get_conversation other conversations) /\
  get_conversation conversation_id
    (delete_conversation conversation_id conversations') = None /\
  delete_conversation conversation_id conversations'
  = delete_conversation conversation_id conversations.
Proof.
  unfold create_conversation, get_conversation, delete_conversation. simpl.
  split; [reflexivity|]. split; [apply lookup_insert_eq|].
  split; [intros other Hother; by apply lookup_insert_ne|].
  split; [apply lookup_delete_eq|apply delete_insert_eq].
Qed.

End ConversationViews.

(* ===================================================================== *)
(** ** More on schema conversion                                          *)
(* ===================================================================== *)

Section Merging.

Import Converter.

Lemma dict_get_app {V} (k : string) (d1 d2 : dict V) :
  dict_get k (d1 ++ d2) =
  match dict_get k d1 with
  | Some v => Some v
  | None => dict_get k d2
  end.
Proof.
  induction d1 as [|[k1 v1] d1 IH]; [reflexivity|].
  cbn [app dict_get]. by destruct (decide (k = k1)).
Qed.

(** The loop over a parameter list: what it leaves under a name, and
    the names it lists as required. *)
Lemma parameters_loop_lookup (def : Param -> ParamDef) (params : list Param)
    (parameters : gmap string ParamDef) (required : list string) n :
  (foldl (fun '(parameters, required) param =>
            (<[p_name param := def param]> parameters,
             if p_required param then required ++ [p_name param] else required))
         (parameters, required) params).1 !! n =
  match dict_get n (by_name params) with
  | Some param => Some (def param)
  | None => parameters !! n
  end.
Proof.
  revert parameters required. unfold by_name.
  induction params as [|param params IH]; intros parameters required;
    [reflexivity|].
  cbn [foldl]. rewrite IH, fmap_cons, reverse_cons, dict_get_app.
  destruct (dict_get n (reverse _)); [reflexivity|].
  cbn [dict_get]. destruct (decide (n = p_name param)) as [->|Hne].
  - by rewrite lookup_insert_eq.
  - by rewrite lookup_insert_ne.
Qed.

Lemma parameters_loop_required (def : Param -> ParamDef) (params : list Param)
    (parameters : gmap string ParamDef) (required : list string) :
  (foldl (fun '(parameters, required) param =>
            (<[p_name param := def param]> parameters,
             if p_required param then required ++ [p_name param] else required))
         (parameters, required) params).2 =
  required ++ required_names params.
Proof.
  revert parameters required. unfold required_names.
  induction params as [|param params IH]; intros parameters required.
  - by rewrite app_nil_r.
  - cbn [foldl]. rewrite IH, filter_cons.
    destruct (p_required param).
    + rewrite decide_True by done. by rewrite fmap_cons, <- app_assoc.
    + by rewrite decide_False by done.
Qed.

Lemma properties_loop_lookup (props : dict PropSchema)
    (properties : gmap string ParamDef) n :
  foldl (fun properties '(prop_name, prop_schema) =>
           <[prop_name := convert_prop prop_schema]> properties)
        properties props !! n =
  match dict_get n (reverse props) with
  | Some prop_schema => Some (convert_prop prop_schema)
  | None => properties !! n
  end.
Proof.
  revert properties.
  induction props as [|[k ps] props IH]; intros properties; [reflexivity|].
  cbn [foldl]. rewrite IH, reverse_cons, dict_get_app.
  destruct (dict_get n (reverse props)); [reflexivity|].
  cbn [dict_get]. destruct (decide (n = k)) as [->|Hne].
  - by rewrite lookup_insert_eq.
  - by rewrite lookup_insert_ne.
Qed.

Lemma convert_operation_lookup path method operation n :
  properties (parameters (convert_operation path method operation)) !! n =
  match
    match body_schema operation with
    | Some sch => dict_get n (reverse (default [] (s_properties sch)))
    | None => None
    end
  with
  | Some prop_schema => Some (convert_prop prop_schema)
  | None =>
      _convert_parameter
        <$> dict_get n (by_name (default [] (op_parameters operation)))
  end.
Proof.
  unfold convert_operation, body_schema.
  pose proof (parameters_loop_lookup _convert_parameter
                (default [] (op_parameters operation)) ∅ [] n) as Hloop.
  destruct (foldl _ (∅, []) (default [] (op_parameters operation)))
    as [merged listed].
  cbn [fst] in Hloop. rewrite lookup_empty in Hloop.
  assert (merged !! n = _convert_parameter
            <$> dict_get n (by_name (default [] (op_parameters operation))))
    as Hparams by (rewrite Hloop; by destruct (dict_get n _)).
  destruct (requestBody operation) as [body|]; [|exact Hparams].
  destruct (dict_get "application/json" (default [] (content body)))
    as [media|]; [|exact Hparams].
  cbn [parameters properties _convert_schema_to_parameters].
  rewrite lookup_union, properties_loop_lookup, lookup_empty.
  destruct (dict_get n (reverse _)).
  - by rewrite union_Some_l.
  - by rewrite (left_id None _).
Qed.

Lemma convert_operation_required_list path method operation :
  required (parameters (convert_operation path method operation)) =
  required_names (default [] (op_parameters operation))
  ++ match body_schema operation with
     | Some sch => default [] (s_required sch)
     | None => []
     end.
Proof.
  unfold convert_operation, body_schema.
  pose proof (parameters_loop_required _convert_parameter
                (default [] (op_parameters operation)) ∅ []) as Hloop.
  destruct (foldl _ (∅, []) (default [] (op_parameters operation)))
    as [merged listed].
  cbn [snd app] in Hloop. subst listed.
  destruct (requestBody operation) as [body|]; [|by rewrite app_nil_r].
  destruct (dict_get "application/json" (default [] (content body)))
    as [media|]; [reflexivity|by rewrite app_nil_r].
Qed.

(** X23.  The OpenAPI converter merges the parameters of an operation
    with the properties of its JSON body schema: under a name the schema
    has the converted body property when the body declares the name, and
    otherwise the converted parameter of that name (the last one, when
    several have it); the required list is the names of the parameters
    marked required, in order, followed by the required list of the body
    schema as it stands. *)
Theorem convert_operation_merge path method operation :
  (forall n,
     properties (parameters (convert_operation path method operation)) !! n =
     match
       match body_schema operation with
       | Some sch => dict_get n (reverse (default [] (s_properties sch)))
       | None => None
       end
     with
     | Some prop_schema => Some (convert_prop prop_schema)
     | None =>
         _convert_parameter
           <$> dict_get n (by_name (default [] (op_parameters operation)))
     end) /\
  required (parameters (convert_operation path method operation)) =
  required_names (default [] (op_parameters operation))
  ++ match body_schema operation with
     | Some sch => default [] (s_required sch)
     | None => []
     end.
Proof.
  split; [intros n; apply convert_operation_lookup
         |apply convert_operation_required_list].
Qed.




Lemma endpoint_loop (def : Param -> ParamDef) (params : list Param) :
  foldl (fun '(parameters, required) param =>
           (<[p_name param := def param]> parameters,
            if p_required param then required ++ [p_name param] else required))
        ((∅ : gmap string ParamDef), []) params =
  ((foldl (fun '(parameters, required) param =>
            (<[p_name param := def param]> parameters,
             if p_required param then required ++ [p_name param] else required))
         ((∅ : gmap string ParamDef), []) params).1,
   required_names params).
Proof.
  pose proof (parameters_loop_required def params ∅ []) as H.
  destruct (foldl _ _ _) as [merged listed]. cbn [snd app fst] in *.
  by subst listed.
Qed.

(** X25.  The flat converter copies: the schema of an endpoint has, under
    each parameter name, the type, description and enum of the (last)
    parameter of that name as they were declared, with string for a
    missing type and no mapping of unknown types, and nothing else; its
    required list is the names of the parameters marked required, in
    order; name and description are the endpoint's, empty when absent. *)
Theorem rest_endpoint_schema (endpoint : Endpoint) :
  (forall n,
     properties (parameters (convert_rest_endpoint endpoint)) !! n =
     match dict_get n (by_name (default [] (e_parameters endpoint))) with
     | Some param =>
         Some {| pd_type := default "string" (ps_type (p_schema param));
                 pd_description := ps_description (p_schema param);
                 pd_enum := ps_enum (p_schema param);
                 pd_format := None;
                 pd_items := None;
                 pd_properties := None |}
     | None => None
     end) /\
  required (parameters (convert_rest_endpoint endpoint))
  = required_names (default [] (e_parameters endpoint)) /\
  name (convert_rest_endpoint endpoint) = default "" (e_name endpoint) /\
  description (convert_rest_endpoint endpoint)
  = default "" (e_description endpoint) /\
  supports_images (convert_rest_endpoint endpoint) = false.
Proof.
  unfold convert_rest_endpoint.
  rewrite (endpoint_loop rest_param_def).
  cbn [parameters properties required name description supports_images].
  split; [|by repeat split].
  intros n. rewrite parameters_loop_lookup, lookup_empty.
  by destruct (dict_get n _).
Qed.

Lemma loop_ext (def1 def2 : Param -> ParamDef) (params : list Param)
    (acc : gmap string ParamDef * list string) :
  Forall (fun param => def1 param = def2 param) params ->
  foldl (fun '(parameters, required) param =>
           (<[p_name param := def1 param]> parameters,
            if p_required param then required ++ [p_name param] else required))
        acc params =
  foldl (fun '(parameters, required) param =>
           (<[p_name param := def2 param]> parameters,
            if p_required param then required ++ [p_name param] else required))
        acc params.
Proof.
  intros H. revert acc. induction H as [|param params Hp _ IH]; intros acc;
    [reflexivity|].
  cbn [foldl]. destruct acc as [parameters required]. by rewrite Hp, IH.
Qed.

(** X26.  On an endpoint without image parameters and without the
    image_processing flag the image converter produces the schema of the
    flat converter, except that it sets supports_images. *)
Theorem image_endpoint_without_images (endpoint : Endpoint) :
  image_processing endpoint = false ->
  Forall (fun param => ps_type (p_schema param) <> Some "image")
         (default [] (e_parameters endpoint)) ->
  convert_image_endpoint endpoint =
  {| name := name (convert_rest_endpoint endpoint);
     description := description (convert_rest_endpoint endpoint);
     parameters := parameters (convert_rest_endpoint endpoint);
     supports_images := true |}.
Proof.
  intros Hflag Htypes. unfold convert_image_endpoint, convert_rest_endpoint.
  rewrite (loop_ext image_param_def rest_param_def).
  - destruct (foldl _ _ _) as [merged listed]. by rewrite Hflag.
  - eapply Forall_impl; [exact Htypes|]. intros param Hparam. simpl in Hparam.
    unfold image_param_def. case_decide as Himage; [|reflexivity].
    destruct (ps_type (p_schema param)) as [t|]; [|discriminate Himage].
    exfalso. apply Hparam. f_equal. exact Himage.
Qed.

Lemma image_endpoint_without_images_witness :
  convert_image_endpoint Examples.get_weather_endpoint =
  {| name := name (convert_rest_endpoint Examples.get_weather_endpoint);
     description := description (convert_rest_endpoint Examples.get_weather_endpoint);
     parameters := parameters (convert_rest_endpoint Examples.get_weather_endpoint);
     supports_images := true |}.
Proof.
  apply (image_endpoint_without_images Examples.get_weather_endpoint).
  - reflexivity.
  - repeat constructor. discriminate.
Defined.

(** X27.  The image converter marks every schema as supporting images.
    Under the name image_processing_options a flagged endpoint has the
    options property, an object with the boolean resize, the integer
    max_size and the string format, whatever parameter has that name; an
    endpoint without the flag has there what its parameters give.  A
    parameter declared with type image (the last of its name, and not
    hidden by the options property) becomes a string of format binary,
    with its description or, without one, [Image file or URL], and
    without enum. *)
Theorem image_endpoint_schema (endpoint : Endpoint) :
  let converted : gmap string ParamDef :=
    properties (parameters (convert_image_endpoint endpoint)) in
  let declared : dict Param := by_name (default [] (e_parameters endpoint)) in
  supports_images (convert_image_endpoint endpoint) = true /\
  (if image_processing endpoint
   then exists options resize max_size format,
          converted !! "image_processing_options" = Some options /\
          pd_type options = "object" /\
          pd_description options = Some "Options for image processing" /\
          pd_properties options
          = Some [("resize", resize); ("max_size", max_size);
                  ("format", format)] /\
          pd_type resize = "boolean" /\ pd_type max_size = "integer" /\
          pd_type format = "string" /\
          pd_enum format = Some [PyStr "jpeg"; PyStr "png"; PyStr "webp"]
   else converted !! "image_processing_options"
        = match dict_get "image_processing_options" declared with
          | Some param => Some (image_param_def param)
          | None => None
          end) /\
  (forall param,
     dict_get (p_name param) declared = Some param ->
     ps_type (p_schema param) = Some "image" ->
     image_processing endpoint = false \/
     p_name param <> "image_processing_options" ->
     converted !! p_name param =
     Some {| pd_type := "string";
             pd_description :=
               Some (default "Image file or URL" (ps_description (p_schema param)));
             pd_enum := None;
             pd_format := Some "binary";
             pd_items := None;
             pd_properties := None |}).
Proof.
  cbv zeta. unfold convert_image_endpoint.
  pose proof (parameters_loop_lookup image_param_def
                (default [] (e_parameters endpoint)) ∅ []) as Hloop.
  destruct (foldl _ _ _) as [merged listed].
  cbn [fst] in Hloop. cbn [supports_images parameters properties].
  split; [reflexivity|]. split.
  - destruct (image_processing endpoint).
    + exists image_processing_options. eexists _, _, _.
      split; [apply lookup_insert_eq|]. by repeat split.
    + rewrite Hloop, lookup_empty. by destruct (dict_get _ _).
  - intros param Hlast Htype Hname.
    assert (merged !! p_name param = Some (image_param_def param)) as Hparam
      by (by rewrite Hloop, Hlast).
    assert (image_param_def param =
            {| pd_type := "string";
               pd_description :=
                 Some (default "Image file or URL"
                               (ps_description (p_schema param)));
               pd_enum := None; pd_format := Some "binary";
               pd_items := None; pd_properties := None |}) as <-
      by (unfold image_param_def; rewrite Htype; by rewrite decide_True).
    destruct (image_processing endpoint); [|exact Hparam].
    destruct Hname as [?|Hname]; [done|]. by rewrite lookup_insert_ne.
Qed.

Lemma image_endpoint_schema_witness :
  properties (parameters (convert_image_endpoint Examples.detect_objects))
    !! "image"
  = Some {| pd_type := "string";
            pd_description := Some "Image file or URL";
            pd_enum := None;
            pd_format := Some "binary";
            pd_items := None;
            pd_properties := None |}.
Proof.
  apply (proj2 (proj2 (image_endpoint_schema Examples.detect_objects))
           {| p_name := "image"; p_required := true;
              p_schema := {| ps_type := Some "image";
                             ps_description := None; ps_enum := None;
                             ps_items := None |} |});
    [reflexivity|reflexivity|right; discriminate].
Defined.

End Merging.

(* ===================================================================== *)
(** ** Cleaning of descriptions                                           *)
(* ===================================================================== *)

Section Cleaning.

Import Converter.

Lemma contains_char c a s :
  contains (String c EmptyString) (String a s) =
  Ascii.eqb a c || contains (String c EmptyString) s.
Proof.
  unfold contains. rewrite find_sub_char.
  destruct (Ascii.eqb a c); [reflexivity|].
  by destruct (find_sub _ s) as [[? ?]|].
Qed.

Lemma opens_tag_false s :
  opens_tag s = false ->
  s = EmptyString \/ (exists s', s = String ">" s') \/ contains ">" s = false.
Proof.
  destruct s as [|c s]; [by left|]. cbn [opens_tag]. rewrite contains_char.
  destruct (Ascii.eqb_spec c ">") as [->|Hne]; [right; left; by eexists|].
  cbn [negb andb orb]. by right; right.
Qed.

Lemma opens_tag_contains s : contains ">" s = false -> opens_tag s = false.
Proof.
  destruct s as [|c s]; [done|]. cbn [opens_tag]. rewrite contains_char.
  intros [_ ->]%orb_false_iff. apply andb_false_r.
Qed.

(** A text without ['>'] has none after any of the passes. *)
Lemma remove_tags_no_gt b s :
  contains ">" s = false -> contains ">" (remove_tags b s) = false.
Proof.
  revert b. induction s as [|c s IH]; intros b; [done|].
  rewrite contains_char. intros [Hc Hs]%orb_false_iff.
  cbn [remove_tags]. destruct b; [by apply IH|].
  destruct (Ascii.eqb c "<" && opens_tag s); [by apply IH|].
  rewrite contains_char, Hc. by apply IH.
Qed.

Lemma collapse_no_gt b s :
  contains ">" s = false -> contains ">" (collapse_spaces b s) = false.
Proof.
  revert b. induction s as [|c s IH]; intros b; [done|].
  rewrite contains_char. intros [Hc Hs]%orb_false_iff.
  cbn [collapse_spaces]. destruct (is_space c).
  - destruct b; [by apply IH|]. rewrite contains_char. by rewrite IH.
  - rewrite contains_char, Hc. by apply IH.
Qed.

Lemma rstrip_cons c s :
  rstrip (String c s) =
  match rstrip s with
  | EmptyString => if is_space c then EmptyString else String c EmptyString
  | r => String c r
  end.
Proof. reflexivity. Qed.

Lemma rstrip_keeps c s : is_space c = false -> rstrip (String c s) = String c (rstrip s).
Proof. intros H. rewrite rstrip_cons, H. by destruct (rstrip s). Qed.

Lemma rstrip_no_gt s :
  contains ">" s = false -> contains ">" (rstrip s) = false.
Proof.
  induction s as [|c s IH]; [done|].
  rewrite contains_char. intros [Hc Hs]%orb_false_iff.
  rewrite rstrip_cons. specialize (IH Hs).
  destruct (rstrip s) as [|a r].
  - destruct (is_space c); [done|]. by rewrite contains_char, Hc.
  - by rewrite contains_char, Hc.
Qed.

Lemma tag_free_remove_tags b s : tag_free (remove_tags b s) = true.
Proof.
  revert b. induction s as [|c s IH]; intros b; [done|].
  cbn [remove_tags]. destruct b; [apply IH|].
  destruct (Ascii.eqb c "<" && opens_tag s) eqn:Hopen; [apply IH|].
  cbn [tag_free]. rewrite IH, andb_true_r.
  apply negb_true_iff. apply andb_false_iff in Hopen as [Hc|Ho]; [by rewrite Hc|].
  apply andb_false_iff. right.
  destruct (opens_tag_false s Ho) as [->|[[s' ->]|Hgt]].
  - reflexivity.
  - reflexivity.
  - apply opens_tag_contains. by apply remove_tags_no_gt.
Qed.

Lemma remove_tags_tag_free s : tag_free s = true -> remove_tags false s = s.
Proof.
  induction s as [|c s IH]; [done|]. cbn [tag_free remove_tags].
  intros [Hc Hs]%andb_true_iff. apply negb_true_iff in Hc. rewrite Hc.
  by rewrite IH.
Qed.

Lemma space_not_gt c : is_space c = true -> Ascii.eqb c ">" = false.
Proof. destruct (Ascii.eqb_spec c ">") as [->|]; [discriminate|done]. Qed.

Lemma space_not_lt c : is_space c = true -> Ascii.eqb c "<" = false.
Proof. destruct (Ascii.eqb_spec c "<") as [->|]; [discriminate|done]. Qed.

Lemma tag_free_collapse b s :
  tag_free s = true -> tag_free (collapse_spaces b s) = true.
Proof.
  revert b. induction s as [|c s IH]; intros b; [done|].
  cbn [tag_free collapse_spaces]. intros [Hc Hs]%andb_true_iff.
  destruct (is_space c) eqn:Hsp.
  - destruct b; [by apply IH|]. cbn [tag_free]. by rewrite IH.
  - cbn [tag_free]. rewrite IH by done. rewrite andb_true_r.
    apply negb_true_iff. apply negb_true_iff in Hc.
    apply andb_false_iff in Hc as [Hc|Ho]; [by rewrite Hc|].
    apply andb_false_iff. right.
    destruct (opens_tag_false s Ho) as [->|[[s' ->]|Hgt]].
    + reflexivity.
    + reflexivity.
    + apply opens_tag_contains. by apply collapse_no_gt.
Qed.

Lemma tag_free_lstrip s : tag_free s = true -> tag_free (lstrip s) = true.
Proof.
  induction s as [|c s IH]; [done|]. cbn [lstrip].
  destruct (is_space c); [|done]. cbn [tag_free].
  intros [_ Hs]%andb_true_iff. by apply IH.
Qed.

Lemma tag_free_rstrip s : tag_free s = true -> tag_free (rstrip s) = true.
Proof.
  induction s as [|c s IH]; [done|]. cbn [tag_free].
  intros [Hc Hs]%andb_true_iff. specialize (IH Hs).
  destruct (is_space c) eqn:Hsp.
  - rewrite rstrip_cons, Hsp. destruct (rstrip s) as [|a r] eqn:Hr; [done|].
    cbn [tag_free]. cbn [tag_free] in IH. rewrite IH.
    by rewrite (space_not_lt c Hsp).
  - rewrite rstrip_keeps by done. cbn [tag_free]. rewrite IH, andb_true_r.
    apply negb_true_iff. apply negb_true_iff in Hc.
    apply andb_false_iff in Hc as [Hc|Ho]; [by rewrite Hc|].
    apply andb_false_iff. right.
    destruct (opens_tag_false s Ho) as [->|[[s' ->]|Hgt]].
    + reflexivity.
    + by rewrite rstrip_keeps.
    + apply opens_tag_contains. by apply rstrip_no_gt.
Qed.

Lemma blanks_single_collapse b s : blanks_single b (collapse_spaces b s) = true.
Proof.
  revert b. induction s as [|c s IH]; intros b; [done|].
  cbn [collapse_spaces]. destruct (is_space c) eqn:Hsp.
  - destruct b; [apply IH|]. cbn [blanks_single]. by rewrite IH.
  - cbn [blanks_single]. rewrite Hsp. apply IH.
Qed.

Lemma collapse_blanks_single b s :
  blanks_single b s = true -> collapse_spaces b s = s.
Proof.
  revert b. induction s as [|c s IH]; intros b; [done|].
  cbn [blanks_single collapse_spaces]. destruct (is_space c).
  - intros [[Hc Hb]%andb_true_iff Hs]%andb_true_iff.
    apply negb_true_iff in Hb. subst b. apply Ascii.eqb_eq in Hc. subst c.
    by rewrite IH.
  - intros Hs. by rewrite IH.
Qed.

Lemma blanks_single_weaken s : blanks_single true s = true -> blanks_single false s = true.
Proof.
  destruct s as [|c s]; [done|]. cbn [blanks_single].
  destruct (is_space c); [|done]. by rewrite andb_false_r.
Qed.

Lemma blanks_single_lstrip b s :
  blanks_single b s = true -> blanks_single false (lstrip s) = true.
Proof.
  revert b. induction s as [|c s IH]; intros b; [done|].
  cbn [lstrip]. destruct (is_space c) eqn:Hsp.
  - cbn [blanks_single]. rewrite Hsp. intros [_ Hs]%andb_true_iff. by eapply IH.
  - cbn [blanks_single]. rewrite Hsp. done.
Qed.

Lemma blanks_single_rstrip b s :
  blanks_single b s = true -> blanks_single b (rstrip s) = true.
Proof.
  revert b. induction s as [|c s IH]; intros b; [done|].
  cbn [blanks_single]. rewrite rstrip_cons. destruct (is_space c) eqn:Hsp.
  - intros [Hc Hs]%andb_true_iff. specialize (IH _ Hs).
    destruct (rstrip s) as [|a r]; [done|].
    cbn [blanks_single]. rewrite Hsp, Hc. exact IH.
  - intros Hs. specialize (IH _ Hs).
    destruct (rstrip s) as [|a r]; cbn [blanks_single]; by rewrite Hsp.
Qed.

Lemma rstrip_rstrip s : rstrip (rstrip s) = rstrip s.
Proof.
  induction s as [|c s IH]; [done|]. rewrite rstrip_cons.
  destruct (rstrip s) as [|a r] eqn:Hr.
  - destruct (is_space c) eqn:Hsp; [done|]. by rewrite rstrip_keeps.
  - rewrite rstrip_cons, IH. reflexivity.
Qed.

Lemma lstrip_fixed s : lstrip s = s <-> match s with String c _ => is_space c = false | EmptyString => True end.
Proof.
  destruct s as [|c s]; [done|]. cbn [lstrip]. destruct (is_space c) eqn:Hsp; [|done].
  split; [|done]. intros H. exfalso.
  assert (String.length (lstrip s) <= String.length s)%nat as Hlen.
  { clear. induction s as [|a s IH]; [done|]. cbn [lstrip].
    destruct (is_space a); cbn [String.length]; lia. }
  rewrite H in Hlen. cbn [String.length] in Hlen. lia.
Qed.

Lemma lstrip_lstrip s : lstrip (lstrip s) = lstrip s.
Proof.
  induction s as [|c s IH]; [done|]. cbn [lstrip].
  destruct (is_space c) eqn:Hsp; [exact IH|]. cbn [lstrip]. by rewrite Hsp.
Qed.

Lemma lstrip_rstrip s : lstrip s = s -> lstrip (rstrip s) = rstrip s.
Proof.
  intros H%lstrip_fixed. apply lstrip_fixed.
  destruct s as [|c s]; [done|]. by rewrite rstrip_keeps.
Qed.

Lemma strip_strip s : strip (strip s) = strip s.
Proof.
  unfold strip. rewrite lstrip_rstrip by apply lstrip_lstrip.
  apply rstrip_rstrip.
Qed.

Lemma clean_normal (d : option string) :
  let y := _clean_description d in
  tag_free y = true /\ blanks_single false y = true /\ strip y = y.
Proof.
  unfold _clean_description. destruct (truthy_str d); [|done].
  split; [|split].
  - apply tag_free_rstrip, tag_free_lstrip, tag_free_collapse, tag_free_remove_tags.
  - apply blanks_single_rstrip. eapply blanks_single_lstrip.
    apply blanks_single_collapse.
  - apply strip_strip.
Qed.

(** X28.  A cleaned description is in normal form: no tag is left in it,
    its whitespace is single blanks, and it has none at either end; and
    cleaning it again changes nothing. *)
Theorem clean_description_normal (d : option string) :
  let cleaned := _clean_description d in
  tag_free cleaned = true /\
  blanks_single false cleaned = true /\
  strip cleaned = cleaned /\
  _clean_description (Some cleaned) = cleaned.
Proof.
  intros cleaned. destruct (clean_normal d) as (Ht & Hb & Hs).
  fold cleaned in Ht, Hb, Hs. repeat split; try assumption.
  clearbody cleaned. unfold _clean_description.
  cbn [truthy_str default from_option id].
  destruct (String.eqb_spec cleaned "") as [->|_]; [reflexivity|]. cbn [negb].
  by rewrite remove_tags_tag_free, collapse_blanks_single.
Qed.

End Cleaning.

(* ===================================================================== *)
(** ** Derived function names                                             *)
(* ===================================================================== *)

Section Names.

Import Converter.

Lemma map_chars_list f s :
  list_ascii_of_string (map_chars f s) = f <$> list_ascii_of_string s.
Proof. induction s as [|c s IH]; [done|]. cbn. by rewrite <- IH. Qed.

Lemma name_char c :
  let c' := lower_char (if Ascii.eqb c "-" then "_"%char else c) in
  c' <> "-"%char /\ is_upper c' = false /\ Ascii.eqb c' "/" = Ascii.eqb c "/".
Proof.
  destruct c as [[] [] [] [] [] [] [] []]; vm_compute;
    (split; [discriminate|split; reflexivity]).
Qed.

Lemma contains_map_chars f s :
  (forall c, Ascii.eqb (f c) "/" = Ascii.eqb c "/") ->
  contains "/" (map_chars f s) = contains "/" s.
Proof.
  intros Hf. induction s as [|c s IH]; [done|].
  change (map_chars f (String c s)) with (String (f c) (map_chars f s)).
  by rewrite !contains_char, Hf, IH.
Qed.

Lemma contains_append a b :
  contains "/" (a +:+ b) = contains "/" a || contains "/" b.
Proof.
  induction a as [|c a IH]; [done|].
  change (String c a +:+ b) with (String c (a +:+ b)).
  by rewrite !contains_char, IH, orb_assoc.
Qed.

Lemma contains_join parts :
  Forall (fun p => contains "/" p = false) parts ->
  contains "/" (join "_" parts) = false.
Proof.
  induction 1 as [|p parts Hp Hparts IH]; [done|].
  cbn [join]. destruct parts as [|q parts]; [done|].
  by rewrite !contains_append, Hp, IH.
Qed.

Lemma split_parts sep s :
  Forall (fun p => contains (String sep EmptyString) p = false) (split sep s).
Proof.
  induction s as [|c s IH]; [by repeat constructor|].
  cbn [split]. destruct (Ascii.eqb c sep) eqn:Hc.
  - by constructor.
  - destruct (split sep s) as [|seg segs]; [repeat constructor|].
    + by rewrite contains_char, Hc.
    + apply Forall_cons in IH as [Hseg Hsegs]. constructor; [|done].
      by rewrite contains_char, Hc.
Qed.

(** X29.  A function name derived from method and path has no hyphen
    and no upper-case letter, and no slash when the method has none. *)
Theorem derive_name_chars method path :
  Forall (fun c => c <> "-"%char /\ is_upper c = false)
         (list_ascii_of_string (derive_name method path)) /\
  (contains "/" method = false ->
   contains "/" (derive_name method path) = false).
Proof.
  unfold derive_name, lower, replace_char. split.
  - rewrite !map_chars_list, <- list_fmap_compose.
    apply Forall_fmap, Forall_forall. intros c _.
    destruct (name_char c) as (H1 & H2 & _). by split.
  - intros Hmethod.
    rewrite contains_map_chars.
    2:{ intros c. destruct c as [[] [] [] [] [] [] [] []]; reflexivity. }
    rewrite contains_map_chars.
    2:{ intros c. destruct c as [[] [] [] [] [] [] [] []]; reflexivity. }
    rewrite !contains_append, Hmethod. cbn [orb].
    apply contains_join. apply Forall_forall. intros p Hp.
    apply list_subseteq_filter in Hp.
    by apply (proj1 (Forall_forall _ _) (split_parts "/" path)).
Qed.

End Names.

Lemma derive_name_chars_witness :
  contains "/" (Converter.derive_name "get" "/users/{id}/Order-Items") = false.
Proof.
  apply (derive_name_chars "get" "/users/{id}/Order-Items"). reflexivity.
Defined.
